(** * StelloVault governance service: votes, proposals and metrics

    A shallow embedding of [server/src/services/governance.service.ts]
    (class [GovernanceService]) and of the request guard of the
    [submitVote] controller, together with the properties that the
    governance specification states about them.

    Conventions of the embedding:
    - the two Prisma tables are lists of rows, in insertion order;
    - an [async] method is a function from the database to a settled
      promise ([Fulfilled] or [Rejected]) and the database it leaves;
    - a [Date] is its number of milliseconds since the epoch, in [Z];
    - JavaScript numbers that are computed by a division are IEEE 754
      binary64 values ([PrimFloat.float]); row counts are integers. *)

From Stdlib Require Import ZArith List String Ascii Bool Lia Permutation.
From Stdlib Require Import PrimFloat SpecFloat FloatOps.
Import ListNotations.

Local Open Scope string_scope.
Local Open Scope list_scope.
Local Open Scope Z_scope.

(* ===================================================================== *)
(** ** Data model *)
(* ===================================================================== *)

(** [enum GovernanceStatus]: a string enum whose members carry their own
    name as value. *)
Inductive GovernanceStatus : Type := OPEN | PASSED | REJECTED | EXECUTED.

Definition GovernanceStatus_value (s : GovernanceStatus) : string :=
  match s with
  | OPEN => "OPEN"
  | PASSED => "PASSED"
  | REJECTED => "REJECTED"
  | EXECUTED => "EXECUTED"
  end.

Definition GovernanceStatus_eqb (a b : GovernanceStatus) : bool :=
  match a, b with
  | OPEN, OPEN | PASSED, PASSED | REJECTED, REJECTED | EXECUTED, EXECUTED => true
  | _, _ => false
  end.

(** Values of [Prisma.Decimal] (decimal.js): [coefficient * 10 ^ exponent],
    the two infinities and NaN. *)
Inductive Decimal : Type :=
| DFinite (coefficient exponent : Z)
| DInfinity (negative : bool)
| DNaN.

Definition Decimal_isPositive (d : Decimal) : bool :=
  match d with
  | DFinite c _ => 0 <? c
  | DInfinity negative => negb negative
  | DNaN => false
  end.

(** A row of [governanceProposal]. *)
Module Proposal.
Record t : Type := mk {
  id : string;
  title : string;
  description : string;
  proposerId : string;
  endsAt : Z;
  status : GovernanceStatus;
  createdAt : Z
}.
End Proposal.

(** A row of [governanceVote]. [id] and [createdAt] are assigned by the
    database when the row is created. *)
Module Vote.
Record t : Type := mk {
  id : nat;
  proposalId : string;
  voterAddress : string;
  vote : string;
  weight : Decimal;
  createdAt : Z
}.
End Vote.

(** [interface CastVoteRequest]. *)
Module CastVoteRequest.
Record t : Type := mk {
  proposalId : string;
  voterAddress : string;
  vote : string;
  weight : string
}.
End CastVoteRequest.

(** The contents of the database behind the [prisma] client. *)
Record Db : Type := mkDb {
  governanceProposal : list Proposal.t;
  governanceVote : list Vote.t
}.

(* ===================================================================== *)
(** ** Promises *)
(* ===================================================================== *)

(** What the service throws: [new Error(message)], the error of the
    [Decimal] constructor on an argument it cannot read, the error with
    which Prisma reports a violated unique constraint (code P2002), and
    the error with which Prisma's client refuses the arguments of a query
    before it runs it. *)
Inductive exn : Type :=
| Error (message : string)
| DecimalError (argument : string)
| PrismaUniqueConstraintError
| PrismaValidationError.

Inductive outcome (A : Type) : Type :=
| Fulfilled (value : A)
| Rejected (reason : exn).
Arguments Fulfilled {A} value.
Arguments Rejected {A} reason.

Definition Async (A : Type) : Type := Db -> outcome A * Db.

Definition resolve {A} (a : A) : Async A := fun db => (Fulfilled a, db).

Definition throw {A} (e : exn) : Async A := fun db => (Rejected e, db).

Definition await {A B} (c : Async A) (k : A -> Async B) : Async B :=
  fun db =>
    match c db with
    | (Fulfilled a, db') => k a db'
    | (Rejected e, db') => (Rejected e, db')
    end.

Notation "x <- c ;; k" := (await c (fun x => k))
  (at level 61, c at next level, right associativity).

(* ===================================================================== *)
(** ** Queries of the Prisma client *)
(* ===================================================================== *)

Definition votedBy (proposalId voterAddress : string) (v : Vote.t) : bool :=
  String.eqb (Vote.proposalId v) proposalId
  && String.eqb (Vote.voterAddress v) voterAddress.

Definition ofProposal (proposalId : string) (v : Vote.t) : bool :=
  String.eqb (Vote.proposalId v) proposalId.

(** [governanceProposal.findUnique({ where: { id } })] *)
Definition governanceProposal_findUnique (id : string)
  : Async (option Proposal.t) :=
  fun db =>
    (Fulfilled (find (fun p => String.eqb (Proposal.id p) id)
                     (governanceProposal db)), db).

(** [governanceVote.findFirst({ where: { proposalId, voterAddress } })] *)
Definition governanceVote_findFirst (proposalId voterAddress : string)
  : Async (option Vote.t) :=
  fun db =>
    (Fulfilled (find (votedBy proposalId voterAddress) (governanceVote db)), db).

(** [governanceProposal.count({ where })], with an optional status. *)
Definition governanceProposal_count (where_status : option GovernanceStatus)
  (db : Db) : Z :=
  match where_status with
  | None => Z.of_nat (List.length (governanceProposal db))
  | Some s =>
      Z.of_nat (List.length (filter (fun p => GovernanceStatus_eqb (Proposal.status p) s)
                               (governanceProposal db)))
  end.

(** [governanceVote.count({ where })], with an optional proposal. *)
Definition governanceVote_count (where_proposalId : option string) (db : Db) : Z :=
  match where_proposalId with
  | None => Z.of_nat (List.length (governanceVote db))
  | Some p => Z.of_nat (List.length (filter (ofProposal p) (governanceVote db)))
  end.

(** A JavaScript number as the arguments [skip] and [take] see it: an
    integer, or a number that is not one (NaN, which is what [parseInt]
    returns for a string that does not start with digits, an infinity or
    a fraction). *)
Inductive number : Type :=
| Integer (z : Z)
| NonInteger.

(** The signed 32-bit integers. *)
Definition int32 (z : Z) : bool := (- 2 ^ 31 <=? z) && (z <? 2 ^ 31).

(** [orderBy: { createdAt: "desc" }] on the votes.  The query leaves the
    order of rows with the same creation time open; here they stay in
    the order of their insertion. *)
Fixpoint insert_createdAt_desc (v : Vote.t) (l : list Vote.t) : list Vote.t :=
  match l with
  | [] => [v]
  | x :: rest =>
      if Vote.createdAt x <=? Vote.createdAt v then v :: l
      else x :: insert_createdAt_desc v rest
  end.

Definition orderBy_createdAt_desc (l : list Vote.t) : list Vote.t :=
  fold_right insert_createdAt_desc [] l.

(** The rows that [skip] and [take] select from an ordered result: with a
    [take] that is not negative, [take] rows after the first [skip]; with
    a negative [take], the last [- take] rows before the last [skip],
    still in the order of the result. *)
Definition pageRows {A} (skip take : Z) (ordered : list A) : list A :=
  if 0 <=? take
  then firstn (Z.to_nat take) (skipn (Z.to_nat skip) ordered)
  else rev (firstn (Z.to_nat (- take)) (skipn (Z.to_nat skip) (rev ordered))).

Section Paging.

(** Whether Prisma's client accepts an integer as a value of its type
    [Int], the type of [skip] and [take].  The client is not part of the
    sources; where it matters the theorems assume that it accepts the
    signed 32-bit integers. *)
Variable prismaInt : Z -> bool.

(** The validation of [skip] and [take]: both must be integers that the
    client accepts, and [skip] must not be negative. *)
Definition validPage (skip take : number) : option (Z * Z) :=
  match skip, take with
  | Integer s, Integer t =>
      if (0 <=? s) && prismaInt s && prismaInt t then Some (s, t) else None
  | _, _ => None
  end.

(** [governanceVote.findMany({ where: { proposalId },
    orderBy: { createdAt: "desc" }, skip, take })] *)
Definition governanceVote_findMany (proposalId : string) (skip take : number)
  (db : Db) : outcome (list Vote.t) :=
  match validPage skip take with
  | Some (s, t) =>
      Fulfilled
        (pageRows s t
           (orderBy_createdAt_desc
              (filter (ofProposal proposalId) (governanceVote db))))
  | None => Rejected PrismaValidationError
  end.

End Paging.

(** [a ?? b] *)
Definition nullish {A} (a : option A) (b : A) : A :=
  match a with
  | Some x => x
  | None => b
  end.

(* ===================================================================== *)
(** ** Suspended calls *)
(* ===================================================================== *)

(** A call of [castVote] between two of its [await]s: about to run the
    query of line 146, of line 163 or of line 175, or settled. *)
Inductive Task : Type :=
| AtFindUnique (req : CastVoteRequest.t)
| AtFindFirst (req : CastVoteRequest.t)
| AtCreate (req : CastVoteRequest.t) (weight : Decimal)
| Settled (result : outcome Vote.t).

Fixpoint set_nth {A} (i : nat) (x : A) (l : list A) : list A :=
  match l, i with
  | [], _ => []
  | _ :: rest, O => x :: rest
  | y :: rest, S j => y :: set_nth j x rest
  end.

(** The vote row that a successful call inserts. *)
Definition newRow (now : Z) (req : CastVoteRequest.t) (weight : Decimal)
  (db : Db) : Vote.t :=
  Vote.mk (List.length (governanceVote db))
          (CastVoteRequest.proposalId req) (CastVoteRequest.voterAddress req)
          (CastVoteRequest.vote req) weight now.

(** The votes of one voter on one proposal, and the invariant that there
    is at most one. *)
Definition votesFor (proposalId voterAddress : string) (db : Db) : list Vote.t :=
  filter (votedBy proposalId voterAddress) (governanceVote db).

Definition oneVotePerVoter (db : Db) : Prop :=
  forall proposalId voterAddress,
    (List.length (votesFor proposalId voterAddress db) <= 1)%nat.

Section Service.

(** The constructor [new Prisma.Decimal(s)] of decimal.js: [None] when it
    throws on [s]. The library is not part of the sources. *)
Variable Decimal_new : string -> option Decimal.

(** Whether [schema.prisma] declares (proposalId, voterAddress) unique
    on [governanceVote]. The schema is not part of the sources. *)
Variable uniqueVoteIndex : bool.

(** [new Prisma.Decimal(s)] inside an async function. *)
Definition Prisma_Decimal (s : string) : Async Decimal :=
  match Decimal_new s with
  | Some d => resolve d
  | None => throw (DecimalError s)
  end.

(** [governanceVote.create({ data })]: the row gets the next identifier
    and the creation time; under a unique index a second row for the
    same (proposalId, voterAddress) is refused.  The database can also
    refuse a weight that its column cannot hold; that refusal is not
    modelled: here every row is stored unless the unique index refuses
    it. *)
Definition governanceVote_create (now : Z)
  (proposalId voterAddress vote : string) (weight : Decimal) : Async Vote.t :=
  fun db =>
    if uniqueVoteIndex
       && existsb (votedBy proposalId voterAddress) (governanceVote db)
    then (Rejected PrismaUniqueConstraintError, db)
    else
      let row := Vote.mk (List.length (governanceVote db)) proposalId voterAddress
                         vote weight now in
      (Fulfilled row,
       mkDb (governanceProposal db) (governanceVote db ++ [row])).

(** [GovernanceService.castVote]; [now] is the value of [new Date()]. *)
Definition castVote (now : Z) (req : CastVoteRequest.t) : Async Vote.t :=
  proposal <- governanceProposal_findUnique (CastVoteRequest.proposalId req) ;;
  match proposal with
  | None => throw (Error "Proposal not found")
  | Some proposal =>
      if negb (GovernanceStatus_eqb (Proposal.status proposal) OPEN) then
        throw (Error ("Cannot vote on proposal with status: "
                      ++ GovernanceStatus_value (Proposal.status proposal))%string)
      else if now >? Proposal.endsAt proposal then
        throw (Error "Voting period has ended")
      else
        existingVote <- governanceVote_findFirst
                          (CastVoteRequest.proposalId req)
                          (CastVoteRequest.voterAddress req) ;;
        match existingVote with
        | Some _ => throw (Error "User has already voted on this proposal")
        | None =>
            weight <- Prisma_Decimal (CastVoteRequest.weight req) ;;
            vote <- governanceVote_create now
                      (CastVoteRequest.proposalId req)
                      (CastVoteRequest.voterAddress req)
                      (CastVoteRequest.vote req)
                      weight ;;
            resolve vote
        end
  end.

(** The five preconditions of vote acceptance, read off a request and
    the database. *)
Definition proposalOf (req : CastVoteRequest.t) (db : Db) : option Proposal.t :=
  find (fun p => String.eqb (Proposal.id p) (CastVoteRequest.proposalId req))
       (governanceProposal db).

Definition proposalExists (req : CastVoteRequest.t) (db : Db) : bool :=
  match proposalOf req db with Some _ => true | None => false end.

Definition proposalOpen (req : CastVoteRequest.t) (db : Db) : bool :=
  match proposalOf req db with
  | Some p => GovernanceStatus_eqb (Proposal.status p) OPEN
  | None => false
  end.

Definition beforeDeadline (now : Z) (req : CastVoteRequest.t) (db : Db) : bool :=
  match proposalOf req db with
  | Some p => now <=? Proposal.endsAt p
  | None => false
  end.

Definition weightParses (req : CastVoteRequest.t) : bool :=
  match Decimal_new (CastVoteRequest.weight req) with
  | Some _ => true
  | None => false
  end.

Definition weightPositive (req : CastVoteRequest.t) : bool :=
  match Decimal_new (CastVoteRequest.weight req) with
  | Some d => Decimal_isPositive d
  | None => false
  end.

Definition notYetVoted (req : CastVoteRequest.t) (db : Db) : bool :=
  negb (existsb (votedBy (CastVoteRequest.proposalId req)
                         (CastVoteRequest.voterAddress req))
                (governanceVote db)).

(** A sequence of [castVote] calls, each awaited before the next one
    starts; the outcomes are dropped. *)
Fixpoint castVotes (calls : list (Z * CastVoteRequest.t)) (db : Db) : Db :=
  match calls with
  | [] => db
  | (now, req) :: rest => castVotes rest (snd (castVote now req db))
  end.

(** One turn of the event loop for a suspended [castVote]: the awaited
    query runs against the database and the call continues up to its
    next [await] (or settles). *)
Definition resume (now : Z) (t : Task) (db : Db) : Task * Db :=
  match t with
  | AtFindUnique req =>
      match governanceProposal_findUnique (CastVoteRequest.proposalId req) db with
      | (Rejected e, db') => (Settled (Rejected e), db')
      | (Fulfilled None, db') =>
          (Settled (Rejected (Error "Proposal not found")), db')
      | (Fulfilled (Some proposal), db') =>
          if negb (GovernanceStatus_eqb (Proposal.status proposal) OPEN) then
            (Settled (Rejected
               (Error ("Cannot vote on proposal with status: "
                       ++ GovernanceStatus_value (Proposal.status proposal))%string)),
             db')
          else if now >? Proposal.endsAt proposal then
            (Settled (Rejected (Error "Voting period has ended")), db')
          else (AtFindFirst req, db')
      end
  | AtFindFirst req =>
      match governanceVote_findFirst (CastVoteRequest.proposalId req)
              (CastVoteRequest.voterAddress req) db with
      | (Rejected e, db') => (Settled (Rejected e), db')
      | (Fulfilled (Some _), db') =>
          (Settled (Rejected (Error "User has already voted on this proposal")), db')
      | (Fulfilled None, db') =>
          match Decimal_new (CastVoteRequest.weight req) with
          | None =>
              (Settled (Rejected (DecimalError (CastVoteRequest.weight req))), db')
          | Some weight => (AtCreate req weight, db')
          end
      end
  | AtCreate req weight =>
      match governanceVote_create now
              (CastVoteRequest.proposalId req)
              (CastVoteRequest.voterAddress req)
              (CastVoteRequest.vote req) weight db with
      | (r, db') => (Settled r, db')
      end
  | Settled r => (Settled r, db)
  end.

(** The event loop: [schedule] lists, in order, which call of the pool
    is resumed and what the clock shows at that moment. *)
Fixpoint run (schedule : list (nat * Z)) (pool : list Task) (db : Db)
  : list Task * Db :=
  match schedule with
  | [] => (pool, db)
  | (i, now) :: rest =>
      match nth_error pool i with
      | None => run rest pool db
      | Some t =>
          let (t', db') := resume now t db in
          run rest (set_nth i t' pool) db'
      end
  end.

End Service.

(* ===================================================================== *)
(** ** Reading votes *)
(* ===================================================================== *)

(** The argument [options?: { limit?: number; offset?: number }].  The
    controller passes what [parseInt] returns for the query parameters,
    without a check, so any number can arrive here. *)
Module PageOptions.
Record t : Type := mk {
  limit : option number;
  offset : option number
}.
End PageOptions.

(** The object [{ votes, total, limit, offset }]. *)
Module VotesPage.
Record t : Type := mk {
  votes : list Vote.t;
  total : Z;
  limit : number;
  offset : number
}.
End VotesPage.

(** [options?.limit] and [options?.offset] *)
Definition options_limit (options : option PageOptions.t) : option number :=
  match options with
  | Some o => PageOptions.limit o
  | None => None
  end.

Definition options_offset (options : option PageOptions.t) : option number :=
  match options with
  | Some o => PageOptions.offset o
  | None => None
  end.

(** [GovernanceService.getProposalVotes].  [Promise.all] rejects with the
    error of [findMany] when that query is refused. *)
Definition getProposalVotes (prismaInt : Z -> bool) (proposalId : string)
  (options : option PageOptions.t) : Async VotesPage.t :=
  proposal <- governanceProposal_findUnique proposalId ;;
  match proposal with
  | None => throw (Error "Proposal not found")
  | Some _ =>
      let limit := nullish (options_limit options) (Integer 100) in
      let offset := nullish (options_offset options) (Integer 0) in
      fun db =>
        match governanceVote_findMany prismaInt proposalId offset limit db with
        | Fulfilled votes =>
            let total := governanceVote_count (Some proposalId) db in
            (Fulfilled (VotesPage.mk votes total limit offset), db)
        | Rejected e => (Rejected e, db)
        end
  end.

(* ===================================================================== *)
(** ** Metrics *)
(* ===================================================================== *)

(** The JavaScript number of an integer: the nearest binary64 value. *)
Definition Number_ofZ (z : Z) : float :=
  SF2Prim (binary_normalize prec emax z 0 false).

(** The integer [n] that [toFixed(2)] prints for the positive number
    [m * 2 ^ e]: the one for which [n / 100] is closest to it, the larger
    one when two are equally close. *)
Definition hundredths (m : positive) (e : Z) : Z :=
  if 0 <=? e then 100 * Z.pos m * 2 ^ e
  else (200 * Z.pos m + 2 ^ (- e)) / 2 ^ (- e + 1).

(** [Number(x.toFixed(2))].  [toFixed] prints NaN, the infinities and
    numbers from 10^21 on as [String(x)] does, which [Number] reads back
    as [x]; otherwise it prints the digits of [hundredths] with a point
    before the last two, and [Number] reads them as the binary64 value
    nearest to [n / 100] (computed here by one division, exact while [n]
    is below 2^53). *)
Definition Number_toFixed2 (x : float) : float :=
  match Prim2SF x with
  | S754_nan => x
  | S754_infinity _ => x
  | S754_zero _ => PrimFloat.zero
  | S754_finite s m e =>
      if (0 <=? e) && (10 ^ 21 <=? Z.pos m * 2 ^ e) then x
      else
        let r := PrimFloat.div (Number_ofZ (hundredths m e)) (Number_ofZ 100) in
        if s then PrimFloat.opp r else r
  end.

(** The object returned by [getMetrics]. *)
Module ProposalCounts.
Record t : Type := mk {
  total : Z;
  open : Z;
  passed : Z;
  rejected : Z;
  executed : Z
}.
End ProposalCounts.

Module VotingStats.
Record t : Type := mk {
  totalVotes : Z;
  avgVoteWeight : string;
  participationRate : float
}.
End VotingStats.

Module Metrics.
Record t : Type := mk {
  proposals : ProposalCounts.t;
  voting : VotingStats.t
}.
End Metrics.

Section MetricsAggregator.

(** [governanceVote.aggregate({ _avg: { weight: true } })._avg.weight]:
    the average computed by the database, [None] for SQL NULL. *)
Variable aggregate_avg_weight : list Vote.t -> option Decimal.

(** [Decimal.prototype.toString] *)
Variable Decimal_toString : Decimal -> string.

(** [GovernanceService.getMetrics] *)
Definition getMetrics : Async Metrics.t :=
  fun db =>
    let totalProposals := governanceProposal_count None db in
    let openProposals := governanceProposal_count (Some OPEN) db in
    let passedProposals := governanceProposal_count (Some PASSED) db in
    let rejectedProposals := governanceProposal_count (Some REJECTED) db in
    let executedProposals := governanceProposal_count (Some EXECUTED) db in
    let totalVotes := governanceVote_count None db in
    let avgWeight :=
      nullish (aggregate_avg_weight (governanceVote db)) (DFinite 0 0) in
    let participationRate :=
      if totalProposals >? 0
      then PrimFloat.div (Number_ofZ totalVotes) (Number_ofZ totalProposals)
      else PrimFloat.zero in
    (Fulfilled
       (Metrics.mk
          (ProposalCounts.mk totalProposals openProposals passedProposals
                             rejectedProposals executedProposals)
          (VotingStats.mk totalVotes (Decimal_toString avgWeight)
                          (Number_toFixed2 participationRate))),
     db).

End MetricsAggregator.

(* ===================================================================== *)
(** ** Decimal literals *)
(* ===================================================================== *)

(** The plain literals that the [Decimal] constructor reads: an optional
    minus sign, then digits with an optional fraction ([12], [12.5],
    [12.], [.5]).  The other notations of decimal.js (exponents, [Infinity],
    [NaN], binary, octal and hexadecimal prefixes) are outside this
    reader, which stands for the constructor on plain literals only. *)
Definition digit_value (c : ascii) : option Z :=
  let n := Z.of_N (N_of_ascii c) in
  if (48 <=? n) && (n <=? 57) then Some (n - 48) else None.

Fixpoint digits_value (acc : Z) (l : list ascii) : option Z :=
  match l with
  | [] => Some acc
  | c :: rest =>
      match digit_value c with
      | Some d => digits_value (10 * acc + d) rest
      | None => None
      end
  end.

Fixpoint split_at_point (l : list ascii) : list ascii * option (list ascii) :=
  match l with
  | [] => ([], None)
  | c :: rest =>
      if Ascii.eqb c "."%char then ([], Some rest)
      else let (whole, fraction) := split_at_point rest in (c :: whole, fraction)
  end.

Definition unsigned_literal (l : list ascii) : option (Z * Z) :=
  match split_at_point l with
  | ([], None) => None
  | ([], Some []) => None
  | (whole, None) =>
      option_map (fun n => (n, 0)) (digits_value 0 whole)
  | (whole, Some fraction) =>
      option_map (fun n => (n, - Z.of_nat (List.length fraction)))
                 (digits_value 0 (whole ++ fraction))
  end.

Definition Decimal_ofLiteral (s : string) : option Decimal :=
  match list_ascii_of_string s with
  | "-"%char :: rest =>
      option_map (fun ce => DFinite (- fst ce) (snd ce)) (unsigned_literal rest)
  | l => option_map (fun ce => DFinite (fst ce) (snd ce)) (unsigned_literal l)
  end.

(* ===================================================================== *)
(** ** The request guard of the [submitVote] controller *)
(* ===================================================================== *)

(** A field of the JSON request body. *)
Inductive JsValue : Type :=
| JsUndefined
| JsNull
| JsBoolean (b : bool)
| JsNumber (x : float)
| JsString (s : string)
| JsObject.

(** [!!v] *)
Definition truthy (v : JsValue) : bool :=
  match v with
  | JsUndefined | JsNull => false
  | JsBoolean b => b
  | JsNumber x => negb (PrimFloat.eqb x PrimFloat.zero || PrimFloat.is_nan x)
  | JsString s => negb (String.eqb s EmptyString)
  | JsObject => true
  end.

(** [typeof v === "boolean"] *)
Definition typeof_boolean (v : JsValue) : bool :=
  match v with
  | JsBoolean _ => true
  | _ => false
  end.

(** The test of the controller that answers 400, "Missing required
    fields: proposalId, voteFor, weight", before the service is called:
    [!proposalId || typeof voteFor !== "boolean" || !weight]. *)
Definition submitVote_missing_fields (proposalId voteFor weight : JsValue) : bool :=
  negb (truthy proposalId) || negb (typeof_boolean voteFor) || negb (truthy weight).

(* ===================================================================== *)
(** ** Tally and resolution *)
(* ===================================================================== *)

Module TallyEngine.

(** Modelled from the spec: the vote choice of the specification's data
    model (for, against, optionally abstain); the service under
    verification stores the choice as a free string and never tallies
    it. *)
Inductive Choice : Type := For | Against | Abstain.

(** Modelled from the spec: a Vote of the data model, with its weight in
    units of the smallest fraction of the fixed-point Decimal Weight
    Type, so that addition and comparison are exact. *)
Record Vote : Type := mkVote {
  proposal : string;
  voter : string;
  choice : Choice;
  weight : Z
}.

(** Modelled from the spec: a Proposal of the data model, with the
    quorum threshold and the optional deadline that the resolution
    engine reads. *)
Record Proposal : Type := mkProposal {
  id : string;
  quorum : Z;
  deadline : option Z;
  status : GovernanceStatus
}.

(** Modelled from the spec: the Proposal Store. *)
Record Store : Type := mkStore {
  proposals : list Proposal;
  votes : list Vote
}.

(** Modelled from the spec: [findProposal(id)] of the store interface. *)
Definition findProposal (pid : string) (st : Store) : option Proposal :=
  find (fun p => String.eqb (id p) pid) (proposals st).

(** Modelled from the spec: all votes recorded for a proposal. *)
Definition votesOf (pid : string) (st : Store) : list Vote :=
  filter (fun v => String.eqb (proposal v) pid) (votes st).

(** Modelled from the spec: [updateProposalStatus(id, expectedCurrentStatus,
    newStatus)], which changes the proposal only when its status is the
    expected one. *)
Definition updateProposalStatus (pid : string)
  (expected new : GovernanceStatus) (st : Store) : Store :=
  mkStore
    (map (fun p =>
            if String.eqb (id p) pid && GovernanceStatus_eqb (status p) expected
            then mkProposal (id p) (quorum p) (deadline p) new
            else p)
         (proposals st))
    (votes st).

Definition isFor (v : Vote) : bool :=
  match choice v with For => true | _ => false end.

Definition isAgainst (v : Vote) : bool :=
  match choice v with Against => true | _ => false end.

(** Modelled from the spec: step 3 of the algorithm, the sum of the
    weights of a list of votes. *)
Definition sumWeights (l : list Vote) : Z :=
  fold_right (fun v acc => weight v + acc) 0 l.

Definition forWeight (l : list Vote) : Z := sumWeights (filter isFor l).

Definition againstWeight (l : list Vote) : Z := sumWeights (filter isAgainst l).

(** Abstentions count towards participation. *)
Definition totalWeight (l : list Vote) : Z := sumWeights l.

(** Modelled from the spec: the deadline has passed when one is set and
    the current time is after it (a vote is accepted while the current
    time is at most the deadline). *)
Definition deadlinePassed (now : Z) (p : Proposal) : bool :=
  match deadline p with
  | Some d => d <? now
  | None => false
  end.

(** Modelled from the spec: the decision rule (step 6), once the
    deadline has passed. *)
Definition decide (p : Proposal) (l : list Vote) : GovernanceStatus :=
  if totalWeight l <? quorum p then REJECTED
  else if againstWeight l <? forWeight l then PASSED
  else REJECTED.

(** Modelled from the spec: [evaluate(proposalId)] of the Tally and
    Resolution Engine, which is not among the sources.  It returns the
    resulting status ([None] for a proposal that does not exist) and
    the store with the transition enacted. *)
Definition evaluate (now : Z) (pid : string) (st : Store)
  : option GovernanceStatus * Store :=
  match findProposal pid st with
  | None => (None, st)
  | Some p =>
      if negb (GovernanceStatus_eqb (status p) OPEN) then (Some (status p), st)
      else if deadlinePassed now p then
        let outcome := decide p (votesOf pid st) in
        (Some outcome, updateProposalStatus pid OPEN outcome st)
      else (Some OPEN, st)
  end.

End TallyEngine.

(* ===================================================================== *)
(** ** Concrete databases used in the examples *)
(* ===================================================================== *)

Definition proposal1 : Proposal.t :=
  Proposal.mk "p1" "Raise the collateral ratio" "From 120% to 150%" "user-1"
              1700003600000 OPEN 1700000000000.

Definition db1 : Db := mkDb [proposal1] [].

Definition request1 (weight : string) : CastVoteRequest.t :=
  CastVoteRequest.mk "p1" "GALICE" "YES" weight.

(** Two calls that are resumed in turn, and the same two calls run one
    after the other. *)
Definition interleaved (t : Z) : list (nat * Z) :=
  [(0%nat, t); (1%nat, t); (0%nat, t); (1%nat, t); (0%nat, t); (1%nat, t)].

Definition sequential (t : Z) : list (nat * Z) :=
  [(0%nat, t); (0%nat, t); (0%nat, t); (1%nat, t); (1%nat, t); (1%nat, t)].

Definition proposal2 : Proposal.t :=
  Proposal.mk "p2" "Lower the fee" "From 30 to 25 basis points" "user-2"
              1700003600000 PASSED 1700000000000.

Definition proposal3 : Proposal.t :=
  Proposal.mk "p3" "Add an oracle" "Second price feed" "user-1"
              1700003600000 REJECTED 1700000000000.

Definition vote1 : Vote.t :=
  Vote.mk 0 "p1" "GALICE" "YES" (DFinite 10 0) 1700000001000.

(** Three proposals and one vote. *)
Definition db3 : Db := mkDb [proposal1; proposal2; proposal3] [vote1].

(** The scenario of the specification: quorum 100, deadline at T + 1h,
    votes of weight 40, 40 and 30 (for, for, against). *)
Definition tallyStore : TallyEngine.Store :=
  TallyEngine.mkStore
    [TallyEngine.mkProposal "p1" 100 (Some 3600) OPEN]
    [TallyEngine.mkVote "p1" "a" TallyEngine.For 40;
     TallyEngine.mkVote "p1" "b" TallyEngine.For 40;
     TallyEngine.mkVote "p1" "c" TallyEngine.Against 30].

(* ===================================================================== *)
(** ** Reading and creating proposals *)
(* ===================================================================== *)

(** [orderBy: { createdAt: "desc" }] on any table.  The query leaves the
    order of rows with the same key open; here they stay in the order of
    their insertion. *)
Fixpoint insert_desc {A} (key : A -> Z) (v : A) (l : list A) : list A :=
  match l with
  | [] => [v]
  | x :: rest =>
      if key x <=? key v then v :: l
      else x :: insert_desc key v rest
  end.

Definition orderBy_desc {A} (key : A -> Z) (l : list A) : list A :=
  fold_right (insert_desc key) [] l.

(** [interface ProposalFilters].  The controller checks [limit] and
    [offset] before it calls the service (a limit of at least 1, an
    offset of at least 0), so here they range over the naturals. *)
Module ProposalFilters.
Record t : Type := mk {
  status : option GovernanceStatus;
  proposerId : option string;
  limit : option nat;
  offset : option nat
}.
End ProposalFilters.

(** The object [where] that [getProposals] builds. *)
Module ProposalWhere.
Record t : Type := mk {
  status : option GovernanceStatus;
  proposerId : option string
}.
End ProposalWhere.

(** [interface CreateProposalRequest] *)
Module CreateProposalRequest.
Record t : Type := mk {
  title : string;
  description : string;
  proposerId : string;
  endsAt : Z;
  contractId : option string
}.
End CreateProposalRequest.

(** A proposal with [include: { proposer: { select: ... }, votes: true }];
    [U] is the type of the selected fields of a user. *)
Module ProposalWithRelations.
Record t (U : Type) : Type := mk {
  proposal : Proposal.t;
  proposer : option U;
  votes : list Vote.t
}.
Arguments mk {U} proposal proposer votes.
Arguments proposal {U} t.
Arguments proposer {U} t.
Arguments votes {U} t.
End ProposalWithRelations.

(** A proposal with [include: { proposer: { select: ... } }]. *)
Module ProposalWithProposer.
Record t (U : Type) : Type := mk {
  proposal : Proposal.t;
  proposer : option U
}.
Arguments mk {U} proposal proposer.
Arguments proposal {U} t.
Arguments proposer {U} t.
End ProposalWithProposer.

(** The object [{ proposals, total }]. *)
Module ProposalsPage.
Record t (U : Type) : Type := mk {
  proposals : list (ProposalWithRelations.t U);
  total : Z
}.
Arguments mk {U} proposals total.
Arguments proposals {U} t.
Arguments total {U} t.
End ProposalsPage.

(** Whether a row satisfies [where]. *)
Definition proposalMatches (w : ProposalWhere.t) (p : Proposal.t) : bool :=
  match ProposalWhere.status w with
  | Some s => GovernanceStatus_eqb (Proposal.status p) s
  | None => true
  end
  && match ProposalWhere.proposerId w with
     | Some u => String.eqb (Proposal.proposerId p) u
     | None => true
     end.

(** [governanceProposal.count({ where })] *)
Definition governanceProposal_countWhere (w : ProposalWhere.t) (db : Db) : Z :=
  Z.of_nat (List.length (filter (proposalMatches w) (governanceProposal db))).

(** [if (filters?.status) where.status = ...; if (filters?.proposerId)
    where.proposerId = ...]: a member of the enum is a non-empty string
    and so always truthy; an empty [proposerId] is falsy and adds no
    condition. *)
Definition getProposals_where (filters : option ProposalFilters.t)
  : ProposalWhere.t :=
  match filters with
  | None => ProposalWhere.mk None None
  | Some f =>
      ProposalWhere.mk
        (ProposalFilters.status f)
        (match ProposalFilters.proposerId f with
         | Some u => if String.eqb u EmptyString then None else Some u
         | None => None
         end)
  end.

(** [filters?.limit] and [filters?.offset] *)
Definition filters_limit (filters : option ProposalFilters.t) : option nat :=
  match filters with
  | Some f => ProposalFilters.limit f
  | None => None
  end.

Definition filters_offset (filters : option ProposalFilters.t) : option nat :=
  match filters with
  | Some f => ProposalFilters.offset f
  | None => None
  end.

(** What an Express handler does with its response: [res.json(data)]
    with the default status 200, [res.status(code).json({ success: false,
    error })], or [next(err)]. *)
Inductive HttpResult (D : Type) : Type :=
| Json200 (data : D)
| JsonError (code : nat) (error : string)
| Next (err : exn).
Arguments Json200 {D} data.
Arguments JsonError {D} code error.
Arguments Next {D} err.

(** [(err as Error).message === s].  The messages of the Decimal and of
    the Prisma errors are not among those the handlers compare with. *)
Definition message_is (s : string) (e : exn) : bool :=
  match e with
  | Error m => String.eqb m s
  | _ => false
  end.

Section Proposals.

(** The fields [id], [stellarAddress] and [name] of a user, and the
    lookup of the user with a given id.  The user table is only read by
    the service, and its declaration is not part of the sources. *)
Variable UserSummary : Type.
Variable proposerOf : string -> option UserSummary.

(** Whether the database holds a foreign key from
    [governanceProposal.proposerId] to the users, and the error with which
    Prisma then refuses a row whose proposer does not exist (code P2003).
    The schema is not part of the sources. *)
Variable proposerForeignKey : bool.
Variable foreignKeyError : exn.

(** The relations that [include] adds to a row. *)
Definition includeRelations (db : Db) (p : Proposal.t)
  : ProposalWithRelations.t UserSummary :=
  ProposalWithRelations.mk p (proposerOf (Proposal.proposerId p))
    (filter (ofProposal (Proposal.id p)) (governanceVote db)).

(** [governanceProposal.findMany({ where, include, skip, take,
    orderBy: { createdAt: "desc" } })]; an undefined [skip] skips nothing. *)
Definition governanceProposal_findMany (w : ProposalWhere.t)
  (skip : option nat) (take : nat) (db : Db)
  : list (ProposalWithRelations.t UserSummary) :=
  map (includeRelations db)
    (firstn take
       (skipn (nullish skip 0%nat)
          (orderBy_desc Proposal.createdAt
             (filter (proposalMatches w) (governanceProposal db))))).

(** [GovernanceService.getProposals] *)
Definition getProposals (filters : option ProposalFilters.t)
  : Async (ProposalsPage.t UserSummary) :=
  fun db =>
    let where_ := getProposals_where filters in
    let proposals :=
      governanceProposal_findMany where_ (filters_offset filters)
        (nullish (filters_limit filters) 20%nat) db in
    let total := governanceProposal_countWhere where_ db in
    (Fulfilled (ProposalsPage.mk proposals total), db).

(** [governanceProposal.create({ data, include })]: [id] is the
    identifier generated for the row and [now] its creation time.  The
    primary key refuses an identifier already in use. *)
Definition governanceProposal_create (id : string) (now : Z)
  (title description proposerId : string) (endsAt : Z)
  (status : GovernanceStatus) : Async (ProposalWithProposer.t UserSummary) :=
  fun db =>
    if existsb (fun p => String.eqb (Proposal.id p) id) (governanceProposal db)
    then (Rejected PrismaUniqueConstraintError, db)
    else if proposerForeignKey
            && match proposerOf proposerId with Some _ => false | None => true end
    then (Rejected foreignKeyError, db)
    else
      let row := Proposal.mk id title description proposerId endsAt status now in
      (Fulfilled (ProposalWithProposer.mk row (proposerOf proposerId)),
       mkDb (governanceProposal db ++ [row]) (governanceVote db)).

(** [GovernanceService.createProposal] *)
Definition createProposal (id : string) (now : Z)
  (req : CreateProposalRequest.t) : Async (ProposalWithProposer.t UserSummary) :=
  proposal <- governanceProposal_create id now
                (CreateProposalRequest.title req)
                (CreateProposalRequest.description req)
                (CreateProposalRequest.proposerId req)
                (CreateProposalRequest.endsAt req)
                OPEN ;;
  resolve proposal.

(** [GovernanceService.getProposalById] *)
Definition getProposalById (id : string)
  : Async (ProposalWithRelations.t UserSummary) :=
  fun db =>
    match find (fun p => String.eqb (Proposal.id p) id) (governanceProposal db) with
    | Some proposal => (Fulfilled (includeRelations db proposal), db)
    | None => (Rejected (Error "Proposal not found"), db)
    end.

(** The controller [getProposal] of [GET /api/governance/proposals/:id]. *)
Definition getProposal (id : string) (db : Db)
  : HttpResult (ProposalWithRelations.t UserSummary) * Db :=
  match getProposalById id db with
  | (Fulfilled proposal, db') => (Json200 proposal, db')
  | (Rejected err, db') =>
      if message_is "Proposal not found" err
      then (JsonError 404 "Proposal not found", db')
      else (Next err, db')
  end.

End Proposals.

Arguments includeRelations {UserSummary}.
Arguments governanceProposal_findMany {UserSummary}.
Arguments getProposals {UserSummary}.
Arguments governanceProposal_create {UserSummary}.
Arguments createProposal {UserSummary}.
Arguments getProposalById {UserSummary}.
Arguments getProposal {UserSummary}.

(** The integrity that the schema asks of the two tables: identifiers of
    proposals are unique, and every vote refers to a stored proposal. *)
Definition proposalIdsUnique (db : Db) : Prop :=
  NoDup (map Proposal.id (governanceProposal db)).

Definition votesReferToProposals (db : Db) : Prop :=
  forall v, In v (governanceVote db) ->
            In (Vote.proposalId v) (map Proposal.id (governanceProposal db)).

(** A call of one of the two methods of the service that write. *)
Inductive ServiceCall : Type :=
| CallCreateProposal (id : string) (now : Z) (req : CreateProposalRequest.t)
| CallCastVote (now : Z) (req : CastVoteRequest.t).

Section ServiceCalls.

Variable Decimal_new : string -> option Decimal.
Variable uniqueVoteIndex : bool.
Variable UserSummary : Type.
Variable proposerOf : string -> option UserSummary.
Variable proposerForeignKey : bool.
Variable foreignKeyError : exn.

(** The database after one call, and after a sequence of calls each
    awaited before the next. *)
Definition serviceCall (c : ServiceCall) (db : Db) : Db :=
  match c with
  | CallCreateProposal id now req =>
      snd (createProposal proposerOf proposerForeignKey foreignKeyError id now req db)
  | CallCastVote now req =>
      snd (castVote Decimal_new uniqueVoteIndex now req db)
  end.

Definition serviceCalls (calls : list ServiceCall) (db : Db) : Db :=
  fold_left (fun d c => serviceCall c d) calls db.

End ServiceCalls.

Arguments serviceCall Decimal_new uniqueVoteIndex {UserSummary}.
Arguments serviceCalls Decimal_new uniqueVoteIndex {UserSummary}.

(** The pairs (proposalId, voterAddress) of a list of requests. *)
Definition requestPair (req : CastVoteRequest.t) : string * string :=
  (CastVoteRequest.proposalId req, CastVoteRequest.voterAddress req).

(** A pool of calls that have just been made. *)
Definition freshPool (reqs : list CastVoteRequest.t) : list Task :=
  map AtFindUnique reqs.

(** The request that a call which is not settled carries. *)
Definition taskRequest (t : Task) : option CastVoteRequest.t :=
  match t with
  | AtFindUnique req | AtFindFirst req | AtCreate req _ => Some req
  | Settled _ => None
  end.

(** Calls of a pool that are not settled are for pairwise different
    (proposal, voter) pairs; and every call that is about to insert its
    vote still finds no vote of its voter on its proposal. *)
Definition distinctCalls (pool : list Task) : Prop :=
  forall i j ti tj ri rj,
    i <> j ->
    nth_error pool i = Some ti -> nth_error pool j = Some tj ->
    taskRequest ti = Some ri -> taskRequest tj = Some rj ->
    requestPair ri <> requestPair rj.

Definition insertsAreFirst (pool : list Task) (db : Db) : Prop :=
  forall i req d,
    nth_error pool i = Some (AtCreate req d) -> notYetVoted req db = true.

(** Non-increasing keys along a list. *)
Fixpoint descending {A} (key : A -> Z) (l : list A) : Prop :=
  match l with
  | [] => True
  | x :: rest => (forall y, In y rest -> key y <= key x) /\ descending key rest
  end.

(** Further rows for the examples. *)
Definition vote2 : Vote.t :=
  Vote.mk 1 "p1" "GBOB" "NO" (DFinite 25 (-1)) 1700000002000.

Definition vote3 : Vote.t :=
  Vote.mk 2 "p2" "GALICE" "YES" (DFinite 4 0) 1700000000500.

Definition db4 : Db := mkDb [proposal1; proposal2; proposal3] [vote1; vote2; vote3].

(** Three proposals created at three different times, stored in an order
    that is not the order of their creation. *)
Definition proposal5 : Proposal.t :=
  Proposal.mk "p5" "Raise the quorum" "From 100 to 150" "user-2"
              1700003600000 OPEN 1700000200000.

Definition proposal6 : Proposal.t :=
  Proposal.mk "p6" "Rotate the admin key" "Quarterly" "user-1"
              1700003600000 PASSED 1700000100000.

Definition db5 : Db := mkDb [proposal1; proposal5; proposal6] [vote1; vote2].

Definition users1 (id : string) : option (string * string) :=
  if String.eqb id "user-1" then Some ("user-1", "GUSER1")
  else if String.eqb id "user-2" then Some ("user-2", "GUSER2")
  else None.

Definition createRequest1 : CreateProposalRequest.t :=
  CreateProposalRequest.mk "Pause deposits" "For the audit" "user-2"
                           1700009000000 None.

(* ===================================================================== *)
(** ** Properties of [castVote] *)
(* ===================================================================== *)

Lemma find_none_filter {A} (f : A -> bool) (l : list A) :
  find f l = None -> filter f l = [].
Proof.
  induction l as [| x l IH]; simpl; [reflexivity |].
  destruct (f x); [discriminate | exact IH].
Qed.

Lemma find_none_existsb {A} (f : A -> bool) (l : list A) :
  find f l = None <-> existsb f l = false.
Proof.
  induction l as [| x l IH]; simpl; [tauto |].
  destruct (f x); simpl; [split; discriminate | exact IH].
Qed.

Lemma GovernanceStatus_eqb_eq (a b : GovernanceStatus) :
  GovernanceStatus_eqb a b = true <-> a = b.
Proof. destruct a, b; simpl; split; congruence. Qed.

Section CastVoteProperties.

Variable Decimal_new : string -> option Decimal.
Variable uniqueVoteIndex : bool.

(** [castVote] as a decision list over its checks, in the order of the
    source. *)
Lemma castVote_eq now req db :
  castVote Decimal_new uniqueVoteIndex now req db =
  match proposalOf req db with
  | None => (Rejected (Error "Proposal not found"), db)
  | Some p =>
      if negb (GovernanceStatus_eqb (Proposal.status p) OPEN) then
        (Rejected (Error ("Cannot vote on proposal with status: "
                          ++ GovernanceStatus_value (Proposal.status p))%string), db)
      else if now >? Proposal.endsAt p then
        (Rejected (Error "Voting period has ended"), db)
      else if notYetVoted req db then
        match Decimal_new (CastVoteRequest.weight req) with
        | None => (Rejected (DecimalError (CastVoteRequest.weight req)), db)
        | Some d =>
            (Fulfilled (newRow now req d db),
             mkDb (governanceProposal db)
                  (governanceVote db ++ [newRow now req d db]))
        end
      else (Rejected (Error "User has already voted on this proposal"), db)
  end.
Proof.
  unfold castVote, await, governanceProposal_findUnique,
    proposalOf, throw.
  destruct (find _ (governanceProposal db)) as [p |]; [| reflexivity].
  destruct (negb _); [reflexivity |].
  destruct (now >? _); [reflexivity |].
  unfold governanceVote_findFirst, notYetVoted.
  destruct (find _ (governanceVote db)) as [v |] eqn:Hfind.
  - assert (Hex : existsb (votedBy (CastVoteRequest.proposalId req)
                                   (CastVoteRequest.voterAddress req))
                          (governanceVote db) = true).
    { destruct (existsb _ _) eqn:E; [reflexivity |].
      apply find_none_existsb in E. congruence. }
    rewrite Hex. reflexivity.
  - apply find_none_existsb in Hfind. rewrite Hfind. simpl.
    unfold Prisma_Decimal.
    destruct (Decimal_new _) as [d |]; [| reflexivity].
    unfold resolve, throw, governanceVote_create. rewrite Hfind.
    rewrite andb_false_r. reflexivity.
Qed.

(** A rejected call leaves the database as it found it. *)
Lemma castVote_rejected_unchanged now req db e db' :
  castVote Decimal_new uniqueVoteIndex now req db = (Rejected e, db') -> db' = db.
Proof.
  rewrite castVote_eq.
  destruct (proposalOf req db) as [p |]; [| congruence].
  destruct (negb _); [congruence |].
  destruct (now >? _); [congruence |].
  destruct (notYetVoted req db); [| congruence].
  destruct (Decimal_new _); congruence.
Qed.

(** A fulfilled call has passed every check of the source and appended
    exactly its own row. *)
Lemma castVote_fulfilled now req db v db' :
  castVote Decimal_new uniqueVoteIndex now req db = (Fulfilled v, db') ->
  proposalExists req db = true /\ proposalOpen req db = true
  /\ beforeDeadline now req db = true /\ notYetVoted req db = true
  /\ Decimal_new (CastVoteRequest.weight req) = Some (Vote.weight v)
  /\ v = newRow now req (Vote.weight v) db
  /\ db' = mkDb (governanceProposal db) (governanceVote db ++ [v]).
Proof.
  rewrite castVote_eq. unfold proposalExists, proposalOpen, beforeDeadline.
  destruct (proposalOf req db) as [p |]; [| congruence].
  destruct (GovernanceStatus_eqb _ OPEN); simpl; [| congruence].
  destruct (now >? _) eqn:Hnow; [congruence |].
  destruct (notYetVoted req db); [| congruence].
  destruct (Decimal_new _) as [d |]; [| congruence].
  intros H. inversion H; subst. simpl.
  repeat split; try reflexivity.
  apply Z.leb_le. rewrite Z.gtb_ltb in Hnow. apply Z.ltb_ge in Hnow. exact Hnow.
Qed.

(** Appending the row of a voter who had none keeps one vote per voter. *)
Lemma oneVotePerVoter_insert db v :
  oneVotePerVoter db ->
  existsb (votedBy (Vote.proposalId v) (Vote.voterAddress v)) (governanceVote db)
    = false ->
  oneVotePerVoter (mkDb (governanceProposal db) (governanceVote db ++ [v])).
Proof.
  intros Hinv Hnew pid addr. unfold votesFor. simpl.
  rewrite filter_app, length_app. simpl.
  destruct (votedBy pid addr v) eqn:Hv.
  - unfold votedBy in Hv. apply andb_prop in Hv as [Hp Ha].
    apply String.eqb_eq in Hp, Ha. subst pid addr.
    apply find_none_existsb in Hnew. apply find_none_filter in Hnew.
    rewrite Hnew. simpl. lia.
  - specialize (Hinv pid addr). unfold votesFor in Hinv. simpl. lia.
Qed.

Lemma castVote_oneVotePerVoter now req db :
  oneVotePerVoter db -> oneVotePerVoter (snd (castVote Decimal_new uniqueVoteIndex now req db)).
Proof.
  intros Hinv.
  destruct (castVote Decimal_new uniqueVoteIndex now req db) as [[v | e] db'] eqn:Hcall; simpl.
  - apply castVote_fulfilled in Hcall
      as (_ & _ & _ & Hnew & _ & Hrow & ->).
    apply oneVotePerVoter_insert; [exact Hinv |].
    rewrite Hrow. simpl. unfold notYetVoted in Hnew.
    apply negb_true_iff in Hnew. exact Hnew.
  - apply castVote_rejected_unchanged in Hcall. subst db'. exact Hinv.
Qed.

Lemma castVotes_oneVotePerVoter calls : forall db,
  oneVotePerVoter db -> oneVotePerVoter (castVotes Decimal_new uniqueVoteIndex calls db).
Proof.
  induction calls as [| [now req] calls IH]; intros db Hinv; simpl.
  - exact Hinv.
  - apply IH, castVote_oneVotePerVoter, Hinv.
Qed.

(** C1. Started from a database with at most one vote per (proposal,
    voter), any sequence of awaited [castVote] calls leaves at most one
    vote per pair; and in the database so reached, a call on an existing
    OPEN proposal before its deadline by a voter who already has a vote
    is rejected with "User has already voted on this proposal" and
    inserts nothing. *)
Theorem castVote_rejects_duplicate db calls :
  oneVotePerVoter db ->
  oneVotePerVoter (castVotes Decimal_new uniqueVoteIndex calls db)
  /\ forall now req p,
       proposalOf req (castVotes Decimal_new uniqueVoteIndex calls db) = Some p ->
       Proposal.status p = OPEN ->
       now <= Proposal.endsAt p ->
       notYetVoted req (castVotes Decimal_new uniqueVoteIndex calls db) = false ->
       castVote Decimal_new uniqueVoteIndex now req (castVotes Decimal_new uniqueVoteIndex calls db)
       = (Rejected (Error "User has already voted on this proposal"),
          castVotes Decimal_new uniqueVoteIndex calls db).
Proof.
  intros Hinv. split.
  - apply castVotes_oneVotePerVoter, Hinv.
  - intros now req p Hp Hopen Hnow Hvoted.
    rewrite castVote_eq, Hp, Hopen, Hvoted. simpl.
    destruct (now >? Proposal.endsAt p) eqn:E; [| reflexivity].
    rewrite Z.gtb_ltb in E. apply Z.ltb_lt in E. lia.
Qed.

(** C4, as the code has it. A call of [castVote] that is rejected, for
    whatever reason, leaves the database unchanged; a call that is
    fulfilled has appended exactly its own vote, the proposal exists, is
    OPEN, its deadline has not passed, the voter had no vote yet and the
    weight is one that the Decimal constructor reads (its sign is not
    examined). *)
Theorem castVote_no_partial_vote now req db :
  match castVote Decimal_new uniqueVoteIndex now req db with
  | (Rejected _, db') => db' = db
  | (Fulfilled v, db') =>
      db' = mkDb (governanceProposal db) (governanceVote db ++ [v])
      /\ proposalExists req db = true
      /\ proposalOpen req db = true
      /\ beforeDeadline now req db = true
      /\ notYetVoted req db = true
      /\ weightParses Decimal_new req = true
  end.
Proof.
  destruct (castVote Decimal_new uniqueVoteIndex now req db) as [[v | e] db'] eqn:Hcall.
  - apply castVote_fulfilled in Hcall
      as (Hex & Hopen & Hnow & Hnew & Hw & _ & Hdb).
    unfold weightParses. rewrite Hw. tauto.
  - eapply castVote_rejected_unchanged, Hcall.
Qed.

(** C5. On an existing OPEN proposal: while the clock is at most
    [endsAt], the call is not rejected for the deadline and goes on to
    the checks that follow (a voter who already has a vote is told so, a
    weight that cannot be read is reported); once the clock is after
    [endsAt], the call is rejected with "Voting period has ended" and
    the database is unchanged. *)
Theorem castVote_deadline now req db p :
  proposalOf req db = Some p ->
  Proposal.status p = OPEN ->
  (now <= Proposal.endsAt p ->
     fst (castVote Decimal_new uniqueVoteIndex now req db)
     <> Rejected (Error "Voting period has ended")
     /\ (notYetVoted req db = false ->
         castVote Decimal_new uniqueVoteIndex now req db
         = (Rejected (Error "User has already voted on this proposal"), db))
     /\ (notYetVoted req db = true ->
         Decimal_new (CastVoteRequest.weight req) = None ->
         castVote Decimal_new uniqueVoteIndex now req db
         = (Rejected (DecimalError (CastVoteRequest.weight req)), db)))
  /\ (Proposal.endsAt p < now ->
      castVote Decimal_new uniqueVoteIndex now req db
      = (Rejected (Error "Voting period has ended"), db)).
Proof.
  intros Hp Hopen. rewrite castVote_eq, Hp, Hopen. simpl. split; intros Hnow.
  - assert (E : (now >? Proposal.endsAt p) = false).
    { rewrite Z.gtb_ltb. apply Z.ltb_ge. exact Hnow. }
    rewrite E. split; [| split].
    + destruct (notYetVoted req db); [| simpl; congruence].
      destruct (Decimal_new _); simpl; congruence.
    + intros ->. reflexivity.
    + intros -> ->. reflexivity.
  - assert (E : (now >? Proposal.endsAt p) = true).
    { rewrite Z.gtb_ltb. apply Z.ltb_lt. exact Hnow. }
    rewrite E. reflexivity.
Qed.

(** C6, as the code has it. A weight that the Decimal constructor cannot
    read makes the call fail and inserts no vote; the failure is the
    constructor's own error whenever the proposal is OPEN, its deadline
    has not passed and the voter has no vote yet. *)
Theorem castVote_malformed_weight now req db :
  Decimal_new (CastVoteRequest.weight req) = None ->
  exists e,
    castVote Decimal_new uniqueVoteIndex now req db = (Rejected e, db)
    /\ (proposalOpen req db = true ->
        beforeDeadline now req db = true ->
        notYetVoted req db = true ->
        e = DecimalError (CastVoteRequest.weight req)).
Proof.
  intros Hw. rewrite castVote_eq. unfold proposalOpen, beforeDeadline.
  destruct (proposalOf req db) as [p |].
  2: { eexists. split; [reflexivity | discriminate]. }
  destruct (GovernanceStatus_eqb (Proposal.status p) OPEN); simpl.
  2: { eexists. split; [reflexivity | discriminate]. }
  destruct (now >? Proposal.endsAt p) eqn:E.
  { eexists. split; [reflexivity |]. intros _ Hle _.
    rewrite Z.gtb_ltb in E. apply Z.ltb_lt in E. apply Z.leb_le in Hle. lia. }
  destruct (notYetVoted req db).
  2: { eexists. split; [reflexivity | discriminate]. }
  rewrite Hw. eexists. split; reflexivity.
Qed.

Lemma GovernanceStatus_value_inj a b :
  GovernanceStatus_value a = GovernanceStatus_value b -> a = b.
Proof. destruct a, b; simpl; intros H; congruence. Qed.

(** C7. On an existing proposal whose status is not OPEN the call is
    rejected with "Cannot vote on proposal with status: " followed by the
    value of that status, which determines the status, and the database
    is unchanged. *)
Theorem castVote_closed_proposal now req db p :
  proposalOf req db = Some p ->
  Proposal.status p <> OPEN ->
  castVote Decimal_new uniqueVoteIndex now req db
  = (Rejected (Error ("Cannot vote on proposal with status: "
                      ++ GovernanceStatus_value (Proposal.status p))%string), db)
  /\ forall s, GovernanceStatus_value s = GovernanceStatus_value (Proposal.status p) ->
               s = Proposal.status p.
Proof.
  intros Hp Hclosed. split; [| intros s; apply GovernanceStatus_value_inj].
  rewrite castVote_eq, Hp.
  destruct (GovernanceStatus_eqb (Proposal.status p) OPEN) eqn:E; [| reflexivity].
  apply GovernanceStatus_eqb_eq in E. contradiction.
Qed.

End CastVoteProperties.

(** *** The checks at work on a concrete database *)

Lemma oneVotePerVoter_db1 : oneVotePerVoter db1.
Proof. intros pid addr. simpl. lia. Qed.

Lemma castVote_rejects_duplicate_witness :
  oneVotePerVoter db1
  /\ oneVotePerVoter
       (castVotes Decimal_ofLiteral false
          [(1700000001000, request1 "10"); (1700000002000, request1 "25")] db1)
  /\ castVote Decimal_ofLiteral false 1700000003000 (request1 "7")
       (castVotes Decimal_ofLiteral false
          [(1700000001000, request1 "10"); (1700000002000, request1 "25")] db1)
     = (Rejected (Error "User has already voted on this proposal"),
        mkDb [proposal1] [vote1]).
Proof.
  destruct (castVote_rejects_duplicate Decimal_ofLiteral false db1
              [(1700000001000, request1 "10"); (1700000002000, request1 "25")]
              oneVotePerVoter_db1) as [Hinv Hdup].
  split; [exact oneVotePerVoter_db1 |]. split; [exact Hinv |].
  apply (Hdup 1700000003000 (request1 "7") proposal1);
    [reflexivity | reflexivity | vm_compute; discriminate | reflexivity].
Defined.

(** A vote of weight -2.50 is persisted although the weight is not
    positive: the fourth precondition of the specification does not hold
    for it. *)
Lemma castVote_persists_negative_weight :
  weightPositive Decimal_ofLiteral (request1 "-2.50") = false
  /\ exists v,
       castVote Decimal_ofLiteral false 1700000001000 (request1 "-2.50") db1
       = (Fulfilled v, mkDb [proposal1] [v])
       /\ Vote.weight v = DFinite (-250) (-2)
       /\ mkDb [proposal1] [v] <> db1.
Proof.
  split; [reflexivity |]. eexists. split; [reflexivity |].
  split; [reflexivity | discriminate].
Qed.

Lemma castVote_deadline_witness :
  (fst (castVote Decimal_ofLiteral false 1700003600000 (request1 "7")
          (mkDb [proposal1] [vote1]))
     <> Rejected (Error "Voting period has ended")
   /\ castVote Decimal_ofLiteral false 1700003600000 (request1 "7")
        (mkDb [proposal1] [vote1])
      = (Rejected (Error "User has already voted on this proposal"),
         mkDb [proposal1] [vote1]))
  /\ castVote Decimal_ofLiteral false 1700003600001 (request1 "7")
       (mkDb [proposal1] [vote1])
     = (Rejected (Error "Voting period has ended"), mkDb [proposal1] [vote1]).
Proof.
  split.
  - destruct (castVote_deadline Decimal_ofLiteral false 1700003600000
                (request1 "7") (mkDb [proposal1] [vote1]) proposal1
                eq_refl eq_refl) as [Hbefore _].
    destruct Hbefore as (Hne & Hvoted & _); [vm_compute; discriminate |].
    split; [exact Hne | apply Hvoted; reflexivity].
  - destruct (castVote_deadline Decimal_ofLiteral false 1700003600001
                (request1 "7") (mkDb [proposal1] [vote1]) proposal1
                eq_refl eq_refl) as [_ Hafter].
    apply Hafter. reflexivity.
Defined.

(** Weights "0" and "-2.50" are read by the Decimal constructor as 0 and
    -2.5, neither of them positive, and both calls are fulfilled with a
    vote inserted. *)
Lemma castVote_accepts_nonpositive_weight :
  (weightPositive Decimal_ofLiteral (request1 "0") = false
   /\ exists v,
        castVote Decimal_ofLiteral false 1700000001000 (request1 "0") db1
        = (Fulfilled v, mkDb [proposal1] [v])
        /\ Vote.weight v = DFinite 0 0)
  /\ (weightPositive Decimal_ofLiteral (request1 "-2.50") = false
      /\ exists v,
           castVote Decimal_ofLiteral false 1700000001000 (request1 "-2.50") db1
           = (Fulfilled v, mkDb [proposal1] [v])
           /\ Vote.weight v = DFinite (-250) (-2)).
Proof.
  split; (split; [reflexivity |]); eexists; split; reflexivity.
Qed.

Lemma castVote_malformed_weight_witness :
  Decimal_ofLiteral "1.2.3" = None
  /\ castVote Decimal_ofLiteral false 1700000001000 (request1 "1.2.3") db1
     = (Rejected (DecimalError "1.2.3"), db1).
Proof.
  split; [reflexivity |].
  destruct (castVote_malformed_weight Decimal_ofLiteral false 1700000001000
              (request1 "1.2.3") db1 eq_refl) as [e [Hcall He]].
  rewrite Hcall. f_equal. f_equal. apply He; reflexivity.
Defined.

(** The guard of the controller lets the strings "0" and "-2.50" through
    to the service; it stops an absent weight, the empty string and the
    number 0. *)
Lemma submitVote_guard_examples :
  submitVote_missing_fields (JsString "p1") (JsBoolean true) (JsString "0") = false
  /\ submitVote_missing_fields (JsString "p1") (JsBoolean true) (JsString "-2.50") = false
  /\ submitVote_missing_fields (JsString "p1") (JsBoolean true) JsUndefined = true
  /\ submitVote_missing_fields (JsString "p1") (JsBoolean true) (JsString EmptyString) = true
  /\ submitVote_missing_fields (JsString "p1") (JsBoolean true) (JsNumber PrimFloat.zero) = true.
Proof. repeat split. Qed.

Lemma castVote_closed_proposal_witness :
  castVote Decimal_ofLiteral false 1700000001000
    (CastVoteRequest.mk "p2" "GALICE" "YES" "10") db3
  = (Rejected (Error "Cannot vote on proposal with status: PASSED"), db3).
Proof.
  apply (castVote_closed_proposal Decimal_ofLiteral false 1700000001000
           (CastVoteRequest.mk "p2" "GALICE" "YES" "10") db3 proposal2).
  - reflexivity.
  - discriminate.
Defined.

(* ===================================================================== *)
(** ** Calls that overlap *)
(* ===================================================================== *)

Section Interleaving.

Variable Decimal_new : string -> option Decimal.

(** A call that is resumed three times in a row, with no other call in
    between, is the [castVote] of the previous section. *)
Lemma run_alone uniqueVoteIndex now req db :
  run Decimal_new uniqueVoteIndex [(0%nat, now); (0%nat, now); (0%nat, now)]
      [AtFindUnique req] db
  = ([Settled (fst (castVote Decimal_new uniqueVoteIndex now req db))],
     snd (castVote Decimal_new uniqueVoteIndex now req db)).
Proof.
  rewrite castVote_eq. unfold run, resume, nth_error, set_nth.
  unfold governanceProposal_findUnique, proposalOf.
  destruct (find _ (governanceProposal db)) as [p |]; [| reflexivity].
  destruct (negb _); [reflexivity |].
  destruct (now >? _); [reflexivity |].
  unfold governanceVote_findFirst, notYetVoted.
  destruct (find _ (governanceVote db)) as [v |] eqn:Hfind.
  - destruct (existsb _ _) eqn:E; [reflexivity |].
    apply find_none_existsb in E. congruence.
  - apply find_none_existsb in Hfind. rewrite Hfind. simpl.
    destruct (Decimal_new _) as [d |]; [| reflexivity].
    unfold governanceVote_create. rewrite Hfind, andb_false_r. reflexivity.
Qed.

(** The three turns of a call whose checks pass. *)
Lemma resume_findUnique uniqueVoteIndex now req db :
  proposalOpen req db = true ->
  beforeDeadline now req db = true ->
  resume Decimal_new uniqueVoteIndex now (AtFindUnique req) db = (AtFindFirst req, db).
Proof.
  unfold proposalOpen, beforeDeadline, proposalOf, resume, governanceProposal_findUnique.
  destruct (find _ (governanceProposal db)) as [p |]; [| discriminate].
  intros -> Hnow. simpl. rewrite Z.gtb_ltb.
  apply Z.leb_le in Hnow.
  destruct (Z.ltb_spec (Proposal.endsAt p) now); [lia | reflexivity].
Qed.

Lemma resume_findFirst uniqueVoteIndex now req db d :
  notYetVoted req db = true ->
  Decimal_new (CastVoteRequest.weight req) = Some d ->
  resume Decimal_new uniqueVoteIndex now (AtFindFirst req) db = (AtCreate req d, db).
Proof.
  unfold notYetVoted, resume, governanceVote_findFirst. intros Hnew Hw.
  apply negb_true_iff, find_none_existsb in Hnew. rewrite Hnew, Hw. reflexivity.
Qed.

Lemma resume_create_no_index now req db d :
  resume Decimal_new false now (AtCreate req d) db
  = (Settled (Fulfilled (newRow now req d db)),
     mkDb (governanceProposal db) (governanceVote db ++ [newRow now req d db])).
Proof. reflexivity. Qed.

Lemma resume_create_unique_index now req db d :
  resume Decimal_new true now (AtCreate req d) db
  = if notYetVoted req db
    then (Settled (Fulfilled (newRow now req d db)),
          mkDb (governanceProposal db) (governanceVote db ++ [newRow now req d db]))
    else (Settled (Rejected PrismaUniqueConstraintError), db).
Proof.
  unfold resume, governanceVote_create, notYetVoted. simpl.
  destruct (existsb _ _); reflexivity.
Qed.

Lemma notYetVoted_after_insert now req db d :
  notYetVoted req
    (mkDb (governanceProposal db) (governanceVote db ++ [newRow now req d db]))
  = false.
Proof.
  unfold notYetVoted. simpl. rewrite existsb_app. simpl.
  unfold votedBy at 2. simpl. rewrite !String.eqb_refl. simpl.
  rewrite orb_true_r. reflexivity.
Qed.

(** Two calls for the same voter and proposal, resumed in turn: both read
    the vote table before either writes to it.  Without a unique index
    both are fulfilled and the voter ends with two votes. *)
Lemma run_interleaved_no_index now req db d :
  proposalOpen req db = true ->
  beforeDeadline now req db = true ->
  notYetVoted req db = true ->
  Decimal_new (CastVoteRequest.weight req) = Some d ->
  let v1 := newRow now req d db in
  let db1 := mkDb (governanceProposal db) (governanceVote db ++ [v1]) in
  let v2 := newRow now req d db1 in
  run Decimal_new false (interleaved now) [AtFindUnique req; AtFindUnique req] db
  = ([Settled (Fulfilled v1); Settled (Fulfilled v2)],
     mkDb (governanceProposal db) ((governanceVote db ++ [v1]) ++ [v2])).
Proof.
  intros Hopen Hnow Hnew Hw. unfold interleaved.
  cbn [run nth_error set_nth].
  rewrite (resume_findUnique false now req db Hopen Hnow).
  cbn [run nth_error set_nth].
  rewrite (resume_findUnique false now req db Hopen Hnow).
  cbn [run nth_error set_nth].
  rewrite (resume_findFirst false now req db d Hnew Hw).
  cbn [run nth_error set_nth].
  rewrite (resume_findFirst false now req db d Hnew Hw).
  cbn [run nth_error set_nth].
  rewrite !resume_create_no_index.
  reflexivity.
Qed.

(** With a unique index the second insertion is refused by the database:
    that call is rejected with Prisma's constraint error, not with the
    error of the duplicate check, which it had already passed. *)
Lemma run_interleaved_unique_index now req db d :
  proposalOpen req db = true ->
  beforeDeadline now req db = true ->
  notYetVoted req db = true ->
  Decimal_new (CastVoteRequest.weight req) = Some d ->
  let v1 := newRow now req d db in
  run Decimal_new true (interleaved now) [AtFindUnique req; AtFindUnique req] db
  = ([Settled (Fulfilled v1); Settled (Rejected PrismaUniqueConstraintError)],
     mkDb (governanceProposal db) (governanceVote db ++ [v1])).
Proof.
  intros Hopen Hnow Hnew Hw. unfold interleaved.
  cbn [run nth_error set_nth].
  rewrite (resume_findUnique true now req db Hopen Hnow).
  cbn [run nth_error set_nth].
  rewrite (resume_findUnique true now req db Hopen Hnow).
  cbn [run nth_error set_nth].
  rewrite (resume_findFirst true now req db d Hnew Hw).
  cbn [run nth_error set_nth].
  rewrite (resume_findFirst true now req db d Hnew Hw).
  cbn [run nth_error set_nth].
  rewrite resume_create_unique_index, Hnew.
  cbn [run nth_error set_nth].
  rewrite resume_create_unique_index, notYetVoted_after_insert. reflexivity.
Qed.

(** The interleaved run without a unique index breaks the invariant. *)
Lemma run_interleaved_breaks_invariant now req db d :
  proposalOpen req db = true ->
  beforeDeadline now req db = true ->
  notYetVoted req db = true ->
  Decimal_new (CastVoteRequest.weight req) = Some d ->
  ~ oneVotePerVoter
      (snd (run Decimal_new false (interleaved now)
                [AtFindUnique req; AtFindUnique req] db)).
Proof.
  intros Hopen Hnow Hnew Hw Hinv.
  rewrite (run_interleaved_no_index now req db d Hopen Hnow Hnew Hw) in Hinv.
  specialize (Hinv (CastVoteRequest.proposalId req) (CastVoteRequest.voterAddress req)).
  unfold votesFor in Hinv. simpl in Hinv.
  rewrite !filter_app, !length_app in Hinv. simpl in Hinv.
  unfold votedBy in Hinv. simpl in Hinv.
  rewrite !String.eqb_refl in Hinv. simpl in Hinv. lia.
Qed.

End Interleaving.

(** C2, on the code. Two [castVote] calls for the same voter and proposal
    whose awaits interleave both find no existing vote.  If the vote table
    has no unique index, both are fulfilled and two votes for the pair
    are stored; if it has one, the second call is rejected by the
    database's constraint error.  In neither case is the loser rejected
    by the duplicate check; run one after the other, the same two calls
    give one vote and one "User has already voted on this proposal". *)
Theorem castVote_race :
  run Decimal_ofLiteral false (interleaved 1700000001000)
      [AtFindUnique (request1 "10"); AtFindUnique (request1 "10")] db1
  = ([Settled (Fulfilled vote1);
      Settled (Fulfilled (Vote.mk 1 "p1" "GALICE" "YES" (DFinite 10 0) 1700000001000))],
     mkDb [proposal1]
          [vote1; Vote.mk 1 "p1" "GALICE" "YES" (DFinite 10 0) 1700000001000])
  /\ run Decimal_ofLiteral true (interleaved 1700000001000)
         [AtFindUnique (request1 "10"); AtFindUnique (request1 "10")] db1
     = ([Settled (Fulfilled vote1); Settled (Rejected PrismaUniqueConstraintError)],
        mkDb [proposal1] [vote1])
  /\ run Decimal_ofLiteral false (sequential 1700000001000)
         [AtFindUnique (request1 "10"); AtFindUnique (request1 "10")] db1
     = ([Settled (Fulfilled vote1);
         Settled (Rejected (Error "User has already voted on this proposal"))],
        mkDb [proposal1] [vote1]).
Proof.
  split; [| split].
  - exact (run_interleaved_no_index Decimal_ofLiteral 1700000001000
             (request1 "10") db1 (DFinite 10 0) eq_refl eq_refl eq_refl eq_refl).
  - exact (run_interleaved_unique_index Decimal_ofLiteral 1700000001000
             (request1 "10") db1 (DFinite 10 0) eq_refl eq_refl eq_refl eq_refl).
  - reflexivity.
Qed.

(* ===================================================================== *)
(** ** Properties of [getProposalVotes] *)
(* ===================================================================== *)

Lemma insert_createdAt_desc_length v l :
  List.length (insert_createdAt_desc v l) = S (List.length l).
Proof.
  induction l as [| x l IH]; simpl; [reflexivity |].
  destruct (Vote.createdAt x <=? Vote.createdAt v); simpl; [reflexivity |].
  rewrite IH. reflexivity.
Qed.

Lemma orderBy_createdAt_desc_length l :
  List.length (orderBy_createdAt_desc l) = List.length l.
Proof.
  induction l as [| x l IH]; simpl; [reflexivity |].
  rewrite insert_createdAt_desc_length, IH. reflexivity.
Qed.

Lemma pageRows_length {A} (skip take : Z) (l : list A) :
  List.length (pageRows skip take l)
  = Nat.min (Z.to_nat (Z.abs take)) (List.length l - Z.to_nat skip).
Proof.
  unfold pageRows. destruct (Z.leb_spec 0 take).
  - rewrite length_firstn, length_skipn. rewrite Z.abs_eq by lia. reflexivity.
  - rewrite length_rev, length_firstn, length_skipn, length_rev.
    rewrite Z.abs_neq by lia. reflexivity.
Qed.

(** [getProposalVotes] as a decision list: the proposal first, then the
    validation of the page, then the two reads. *)
Lemma getProposalVotes_eq prismaInt proposalId options db :
  getProposalVotes prismaInt proposalId options db
  = match find (fun p => String.eqb (Proposal.id p) proposalId)
               (governanceProposal db) with
    | None => (Rejected (Error "Proposal not found"), db)
    | Some _ =>
        match validPage prismaInt (nullish (options_offset options) (Integer 0))
                        (nullish (options_limit options) (Integer 100)) with
        | Some (s, t) =>
            (Fulfilled
               (VotesPage.mk
                  (pageRows s t
                     (orderBy_createdAt_desc
                        (filter (ofProposal proposalId) (governanceVote db))))
                  (governanceVote_count (Some proposalId) db)
                  (nullish (options_limit options) (Integer 100))
                  (nullish (options_offset options) (Integer 0))),
             db)
        | None => (Rejected PrismaValidationError, db)
        end
    end.
Proof.
  unfold getProposalVotes, await, governanceProposal_findUnique, throw,
    governanceVote_findMany.
  destruct (find _ (governanceProposal db)); [| reflexivity].
  destruct (validPage _ _ _) as [[sk tk] |]; reflexivity.
Qed.

(** What a fulfilled [getProposalVotes] returns. *)
Lemma getProposalVotes_fulfilled prismaInt proposalId options db page db' :
  getProposalVotes prismaInt proposalId options db = (Fulfilled page, db') ->
  db' = db
  /\ exists o l,
       nullish (options_offset options) (Integer 0) = Integer o
       /\ nullish (options_limit options) (Integer 100) = Integer l
       /\ 0 <= o
       /\ page
          = VotesPage.mk
              (pageRows o l
                 (orderBy_createdAt_desc
                    (filter (ofProposal proposalId) (governanceVote db))))
              (governanceVote_count (Some proposalId) db)
              (Integer l) (Integer o).
Proof.
  rewrite getProposalVotes_eq.
  destruct (find _ (governanceProposal db)); [| discriminate].
  unfold validPage.
  destruct (nullish (options_offset options) (Integer 0)) as [o |]; [| discriminate].
  destruct (nullish (options_limit options) (Integer 100)) as [l |]; [| discriminate].
  destruct (Z.leb_spec 0 o) as [Ho | Ho]; simpl; [| discriminate].
  destruct (prismaInt o && prismaInt l); [| discriminate].
  intros H. inversion H. split; [reflexivity |].
  exists o, l. repeat split. exact Ho.
Qed.

(** C10, as the code has it. For an existing proposal, with [limit] and
    [offset] absent or signed 32-bit integers and [offset] not negative,
    [getProposalVotes] is fulfilled with [total] the number of all votes
    of that proposal, whatever the page, with [limit] and [offset] the
    given values or 100 and 0 when absent, and with a page no longer
    than [total].  With a negative [offset], or with a [limit] or an
    [offset] that is not an integer, it is rejected by the validation of
    the query; and whenever it is fulfilled, [total] is that number and
    the database is only read.  For a proposal that does not exist it is
    rejected with "Proposal not found". *)
Theorem getProposalVotes_total prismaInt proposalId options db :
  (forall z, int32 z = true -> prismaInt z = true) ->
  match find (fun p => String.eqb (Proposal.id p) proposalId) (governanceProposal db) with
  | Some _ =>
      match nullish (options_offset options) (Integer 0),
            nullish (options_limit options) (Integer 100) with
      | Integer o, Integer l =>
          (0 <= o -> int32 o = true -> int32 l = true ->
           exists page,
             getProposalVotes prismaInt proposalId options db = (Fulfilled page, db)
             /\ VotesPage.total page
                = Z.of_nat (List.length (filter (ofProposal proposalId)
                                                (governanceVote db)))
             /\ VotesPage.limit page = Integer l
             /\ VotesPage.offset page = Integer o
             /\ Z.of_nat (List.length (VotesPage.votes page)) <= VotesPage.total page)
          /\ (o < 0 ->
              getProposalVotes prismaInt proposalId options db
              = (Rejected PrismaValidationError, db))
      | _, _ =>
          getProposalVotes prismaInt proposalId options db
          = (Rejected PrismaValidationError, db)
      end
      /\ forall page db',
           getProposalVotes prismaInt proposalId options db = (Fulfilled page, db') ->
           db' = db
           /\ VotesPage.total page
              = Z.of_nat (List.length (filter (ofProposal proposalId)
                                              (governanceVote db)))
  | None =>
      getProposalVotes prismaInt proposalId options db
      = (Rejected (Error "Proposal not found"), db)
  end.
Proof.
  intros H32.
  destruct (find (fun p => String.eqb (Proposal.id p) proposalId)
                 (governanceProposal db)) as [p |] eqn:Hfind.
  2: { rewrite getProposalVotes_eq, Hfind. reflexivity. }
  split.
  - rewrite getProposalVotes_eq, Hfind. unfold validPage.
    destruct (nullish (options_offset options) (Integer 0)) as [o |];
      [| reflexivity].
    destruct (nullish (options_limit options) (Integer 100)) as [l |];
      [| reflexivity].
    split.
    + intros Ho Ho32 Hl32.
      rewrite (H32 o Ho32), (H32 l Hl32).
      destruct (Z.leb_spec 0 o); [| lia]. simpl.
      eexists. split; [reflexivity |]. simpl. repeat split.
      rewrite pageRows_length, orderBy_createdAt_desc_length. lia.
    + intros Ho. destruct (Z.leb_spec 0 o); [lia | reflexivity].
  - intros page db' H.
    apply getProposalVotes_fulfilled in H as [-> (o & l & _ & _ & _ & ->)].
    split; reflexivity.
Qed.

(** With an offset of -1, or with NaN as limit, the call on the existing
    proposal p1 is rejected and returns no total. *)
Lemma getProposalVotes_rejects_invalid_page :
  find (fun p => String.eqb (Proposal.id p) "p1") (governanceProposal db4)
  = Some proposal1
  /\ getProposalVotes int32 "p1"
       (Some (PageOptions.mk None (Some (Integer (-1))))) db4
     = (Rejected PrismaValidationError, db4)
  /\ getProposalVotes int32 "p1"
       (Some (PageOptions.mk (Some NonInteger) None)) db4
     = (Rejected PrismaValidationError, db4).
Proof. repeat split. Qed.

Lemma getProposalVotes_total_witness :
  exists page,
    getProposalVotes int32 "p1"
      (Some (PageOptions.mk (Some (Integer 1)) None)) db4 = (Fulfilled page, db4)
    /\ VotesPage.total page = 2
    /\ VotesPage.limit page = Integer 1
    /\ VotesPage.offset page = Integer 0
    /\ Z.of_nat (List.length (VotesPage.votes page)) <= VotesPage.total page.
Proof.
  pose proof (getProposalVotes_total int32 "p1"
                (Some (PageOptions.mk (Some (Integer 1)) None)) db4
                (fun z H => H)) as H.
  simpl in H. destruct H as [[H _] _].
  apply H; [lia | reflexivity | reflexivity].
Defined.

(* ===================================================================== *)
(** ** Properties of [getMetrics] *)
(* ===================================================================== *)

Lemma count_by_status (l : list Proposal.t) :
  List.length l
  = (List.length (filter (fun p => GovernanceStatus_eqb (Proposal.status p) OPEN) l)
     + List.length (filter (fun p => GovernanceStatus_eqb (Proposal.status p) PASSED) l)
     + List.length (filter (fun p => GovernanceStatus_eqb (Proposal.status p) REJECTED) l)
     + List.length (filter (fun p => GovernanceStatus_eqb (Proposal.status p) EXECUTED) l))%nat.
Proof.
  induction l as [| p l IH]; simpl; [reflexivity |].
  destruct (Proposal.status p); simpl; lia.
Qed.

Section MetricsProperties.

Variable aggregate_avg_weight : list Vote.t -> option Decimal.
Variable Decimal_toString : Decimal -> string.

(** C9. In the object returned by [getMetrics], [proposals.total] is the
    sum of [proposals.open], [proposals.passed], [proposals.rejected] and
    [proposals.executed]. *)
Theorem getMetrics_total_is_sum db :
  exists m,
    getMetrics aggregate_avg_weight Decimal_toString db = (Fulfilled m, db)
    /\ ProposalCounts.total (Metrics.proposals m)
       = ProposalCounts.open (Metrics.proposals m)
         + ProposalCounts.passed (Metrics.proposals m)
         + ProposalCounts.rejected (Metrics.proposals m)
         + ProposalCounts.executed (Metrics.proposals m).
Proof.
  eexists. split; [reflexivity |]. simpl.
  rewrite (count_by_status (governanceProposal db)) at 1. lia.
Qed.

(** C8, as the code has it. [getMetrics] is always fulfilled and only
    reads the database; its participation rate is 0 when there is no
    proposal, and otherwise the quotient of the number of votes by the
    number of proposals rounded to two decimals by [toFixed(2)]. *)
Theorem getMetrics_participationRate db :
  exists m,
    getMetrics aggregate_avg_weight Decimal_toString db = (Fulfilled m, db)
    /\ VotingStats.totalVotes (Metrics.voting m)
       = Z.of_nat (List.length (governanceVote db))
    /\ VotingStats.participationRate (Metrics.voting m)
       = match governanceProposal db with
         | [] => PrimFloat.zero
         | _ :: _ =>
             Number_toFixed2
               (PrimFloat.div
                  (Number_ofZ (Z.of_nat (List.length (governanceVote db))))
                  (Number_ofZ (Z.of_nat (List.length (governanceProposal db)))))
         end.
Proof.
  eexists. split; [reflexivity |]. split; [reflexivity |].
  cbn [Metrics.voting VotingStats.participationRate].
  unfold governanceProposal_count, governanceVote_count.
  destruct (governanceProposal db) as [| p l].
  - reflexivity.
  - replace (Z.of_nat (List.length (p :: l)) >? 0) with true; [reflexivity |].
    symmetry. rewrite Z.gtb_ltb. apply Z.ltb_lt. simpl List.length. lia.
Qed.

End MetricsProperties.

(** With one vote and three proposals the rate returned is 0.33, the
    binary64 value of 33 / 100, which is not the quotient 1 / 3. *)
Lemma getMetrics_rate_is_rounded :
  exists m,
    getMetrics (fun _ => None) (fun _ => "0") db3 = (Fulfilled m, db3)
    /\ VotingStats.totalVotes (Metrics.voting m) = 1
    /\ ProposalCounts.total (Metrics.proposals m) = 3
    /\ VotingStats.participationRate (Metrics.voting m)
       = PrimFloat.div (Number_ofZ 33) (Number_ofZ 100)
    /\ PrimFloat.eqb (VotingStats.participationRate (Metrics.voting m))
                     (PrimFloat.div (Number_ofZ 1) (Number_ofZ 3)) = false.
Proof.
  eexists. split; [reflexivity |].
  repeat split; vm_compute; reflexivity.
Qed.

Lemma getMetrics_participationRate_examples :
  Number_toFixed2 (PrimFloat.div (Number_ofZ 4) (Number_ofZ 2)) = Number_ofZ 2
  /\ Number_toFixed2 (PrimFloat.div (Number_ofZ 1) (Number_ofZ 8))
     = PrimFloat.div (Number_ofZ 13) (Number_ofZ 100)
  /\ Number_toFixed2 (PrimFloat.div (Number_ofZ 2) (Number_ofZ 3))
     = PrimFloat.div (Number_ofZ 67) (Number_ofZ 100)
  /\ Number_toFixed2 (PrimFloat.div (Number_ofZ 3) (Number_ofZ 200))
     = PrimFloat.div (Number_ofZ 1) (Number_ofZ 100).
Proof. repeat split; vm_compute; reflexivity. Qed.

(* ===================================================================== *)
(** ** Properties of the resolution engine *)
(* ===================================================================== *)

Lemma findProposal_update pid expected new st p :
  TallyEngine.findProposal pid st = Some p ->
  TallyEngine.status p = expected ->
  TallyEngine.findProposal pid (TallyEngine.updateProposalStatus pid expected new st)
  = Some (TallyEngine.mkProposal (TallyEngine.id p) (TallyEngine.quorum p)
                                 (TallyEngine.deadline p) new).
Proof.
  unfold TallyEngine.findProposal, TallyEngine.updateProposalStatus. simpl.
  intros Hfind Hstatus.
  induction (TallyEngine.proposals st) as [| x l IH]; simpl in *; [discriminate |].
  destruct (String.eqb (TallyEngine.id x) pid) eqn:Hid; simpl.
  - inversion Hfind; subst x.
    rewrite Hstatus.
    replace (GovernanceStatus_eqb expected expected) with true
      by (symmetry; apply GovernanceStatus_eqb_eq; reflexivity).
    simpl. rewrite Hid. reflexivity.
  - rewrite Hid. apply IH, Hfind.
Qed.

Lemma updateProposalStatus_votes pid expected new st :
  TallyEngine.votes (TallyEngine.updateProposalStatus pid expected new st)
  = TallyEngine.votes st.
Proof. reflexivity. Qed.

(** C3. For an OPEN proposal whose deadline has passed, [evaluate]
    resolves it from the votes recorded for it: REJECTED when their total
    weight is below the quorum; PASSED when the quorum is met and the
    weight for exceeds the weight against; REJECTED when the quorum is
    met and the weight for is at most the weight against.  The status it
    returns is the one it stores. *)
Theorem evaluate_after_deadline now pid st p d :
  TallyEngine.findProposal pid st = Some p ->
  TallyEngine.status p = OPEN ->
  TallyEngine.deadline p = Some d ->
  d < now ->
  let recorded := TallyEngine.votesOf pid st in
  let result := TallyEngine.evaluate now pid st in
  (TallyEngine.totalWeight recorded < TallyEngine.quorum p ->
   fst result = Some REJECTED)
  /\ (TallyEngine.quorum p <= TallyEngine.totalWeight recorded ->
      TallyEngine.againstWeight recorded < TallyEngine.forWeight recorded ->
      fst result = Some PASSED)
  /\ (TallyEngine.quorum p <= TallyEngine.totalWeight recorded ->
      TallyEngine.forWeight recorded <= TallyEngine.againstWeight recorded ->
      fst result = Some REJECTED)
  /\ option_map TallyEngine.status (TallyEngine.findProposal pid (snd result))
     = fst result.
Proof.
  intros Hfind Hopen Hdeadline Hpassed recorded result.
  assert (Hresult :
    result = (Some (TallyEngine.decide p recorded),
              TallyEngine.updateProposalStatus pid OPEN
                (TallyEngine.decide p recorded) st)).
  { unfold result, TallyEngine.evaluate, TallyEngine.deadlinePassed.
    rewrite Hfind, Hopen, Hdeadline. simpl.
    destruct (Z.ltb_spec d now); [reflexivity | lia]. }
  rewrite Hresult. simpl. unfold TallyEngine.decide.
  repeat split.
  - intros Hq.
    destruct (Z.ltb_spec (TallyEngine.totalWeight recorded) (TallyEngine.quorum p));
      [reflexivity | lia].
  - intros Hq Hfor.
    destruct (Z.ltb_spec (TallyEngine.totalWeight recorded) (TallyEngine.quorum p));
      [lia |].
    destruct (Z.ltb_spec (TallyEngine.againstWeight recorded)
                         (TallyEngine.forWeight recorded)); [reflexivity | lia].
  - intros Hq Hfor.
    destruct (Z.ltb_spec (TallyEngine.totalWeight recorded) (TallyEngine.quorum p));
      [reflexivity |].
    destruct (Z.ltb_spec (TallyEngine.againstWeight recorded)
                         (TallyEngine.forWeight recorded)); [lia | reflexivity].
  - rewrite (findProposal_update pid OPEN _ st p Hfind Hopen). reflexivity.
Qed.

(** The scenario of the specification: after the deadline the total
    weight 110 meets the quorum 100 and 80 for exceeds 30 against, so the
    proposal is PASSED; before the deadline it stays OPEN. *)
Lemma evaluate_after_deadline_witness :
  TallyEngine.totalWeight (TallyEngine.votesOf "p1" tallyStore) = 110
  /\ TallyEngine.forWeight (TallyEngine.votesOf "p1" tallyStore) = 80
  /\ TallyEngine.againstWeight (TallyEngine.votesOf "p1" tallyStore) = 30
  /\ fst (TallyEngine.evaluate 3601 "p1" tallyStore) = Some PASSED
  /\ option_map TallyEngine.status
       (TallyEngine.findProposal "p1" (snd (TallyEngine.evaluate 3601 "p1" tallyStore)))
     = Some PASSED.
Proof.
  destruct (evaluate_after_deadline 3601 "p1" tallyStore
              (TallyEngine.mkProposal "p1" 100 (Some 3600) OPEN) 3600
              eq_refl eq_refl eq_refl ltac:(lia))
    as (_ & Hpass & _ & Hstored).
  do 3 (split; [reflexivity |]). split.
  - apply Hpass; vm_compute; [discriminate | reflexivity].
  - rewrite Hstored. apply Hpass; vm_compute; [discriminate | reflexivity].
Defined.

Lemma evaluate_examples :
  fst (TallyEngine.evaluate 3600 "p1" tallyStore) = Some OPEN
  /\ fst (TallyEngine.evaluate 3601 "p1"
            (TallyEngine.mkStore
               [TallyEngine.mkProposal "p1" 100 (Some 3600) OPEN]
               [TallyEngine.mkVote "p1" "a" TallyEngine.For 30]))
     = Some REJECTED
  /\ fst (TallyEngine.evaluate 3601 "p1"
            (snd (TallyEngine.evaluate 3601 "p1" tallyStore)))
     = Some PASSED.
Proof. repeat split. Qed.

(* ===================================================================== *)
(** ** Ordered pages *)
(* ===================================================================== *)

Section Ordering.

Context {A : Type} (key : A -> Z).

Lemma insert_desc_perm v l : Permutation (insert_desc key v l) (v :: l).
Proof.
  induction l as [| x l IH]; simpl; [reflexivity |].
  destruct (key x <=? key v); [reflexivity |].
  rewrite IH. apply perm_swap.
Qed.

Lemma orderBy_desc_perm l : Permutation (orderBy_desc key l) l.
Proof.
  induction l as [| x l IH]; simpl; [reflexivity |].
  rewrite insert_desc_perm. constructor. exact IH.
Qed.

Lemma orderBy_desc_length l :
  List.length (orderBy_desc key l) = List.length l.
Proof. apply Permutation_length, orderBy_desc_perm. Qed.

Lemma descending_tail x l : descending key (x :: l) -> descending key l.
Proof. simpl. tauto. Qed.

Lemma insert_desc_descending v l :
  descending key l -> descending key (insert_desc key v l).
Proof.
  induction l as [| x l IH]; simpl.
  - intros _. split; [intros y [] | exact I].
  - intros [Hx Hl]. destruct (Z.leb_spec (key x) (key v)) as [Hle | Hgt].
    + simpl. split; [| split; assumption].
      intros y [<- | Hy]; [exact Hle |]. specialize (Hx y Hy). lia.
    + simpl. split; [| apply IH, Hl].
      intros y Hy.
      apply (Permutation_in _ (insert_desc_perm v l)) in Hy.
      destruct Hy as [<- | Hy]; [lia | apply Hx, Hy].
Qed.

Lemma orderBy_desc_descending l : descending key (orderBy_desc key l).
Proof.
  induction l as [| x l IH]; simpl; [exact I |].
  apply insert_desc_descending, IH.
Qed.

Lemma In_firstn n : forall (l : list A) x, In x (firstn n l) -> In x l.
Proof.
  intros l x Hx. rewrite <- (firstn_skipn n l). apply in_or_app. left. exact Hx.
Qed.

Lemma In_skipn n : forall (l : list A) x, In x (skipn n l) -> In x l.
Proof.
  intros l x Hx. rewrite <- (firstn_skipn n l). apply in_or_app. right. exact Hx.
Qed.

Lemma descending_firstn n : forall l,
  descending key l -> descending key (firstn n l).
Proof.
  induction n as [| n IH]; intros [| x l]; simpl; try tauto.
  intros [Hx Hl]. split; [| apply IH, Hl].
  intros y Hy. apply Hx. eapply In_firstn, Hy.
Qed.

Lemma descending_skipn n : forall l,
  descending key l -> descending key (skipn n l).
Proof.
  induction n as [| n IH]; intros [| x l]; simpl; try tauto.
  intros [_ Hl]. apply IH, Hl.
Qed.

(** A page is a run of consecutive rows of the ordered result. *)
Lemma pageRows_slice (skip take : Z) (l : list A) :
  exists a b, pageRows skip take l = skipn a (firstn b l).
Proof.
  unfold pageRows. destruct (0 <=? take).
  - exists (Z.to_nat skip), (Z.to_nat skip + Z.to_nat take)%nat.
    apply firstn_skipn_comm.
  - rewrite skipn_rev, firstn_rev, rev_involutive. eexists. eexists. reflexivity.
Qed.

Lemma In_pageRows skip take (l : list A) x :
  In x (pageRows skip take l) -> In x l.
Proof.
  destruct (pageRows_slice skip take l) as (a & b & ->).
  intros Hx. eapply In_firstn, In_skipn, Hx.
Qed.

Lemma descending_pageRows skip take l :
  descending key l -> descending key (pageRows skip take l).
Proof.
  destruct (pageRows_slice skip take l) as (a & b & ->).
  intros Hl. apply descending_skipn, descending_firstn, Hl.
Qed.

(** The newest row comes first: a row whose key exceeds every key of
    [l], appended to [l], heads the ordered list. *)
Lemma orderBy_desc_newest l v :
  (forall x, In x l -> key x < key v) ->
  orderBy_desc key (l ++ [v]) = v :: orderBy_desc key l.
Proof.
  intros Hnew. unfold orderBy_desc. rewrite fold_right_app. simpl.
  induction l as [| x l IH]; simpl; [reflexivity |].
  rewrite IH by (intros y Hy; apply Hnew; right; exact Hy).
  simpl. destruct (Z.leb_spec (key v) (key x)) as [Hle | _]; [| reflexivity].
  specialize (Hnew x (or_introl eq_refl)). lia.
Qed.

Lemma firstn_skipn_add (a b : nat) : forall l : list A,
  firstn a l ++ firstn b (skipn a l) = firstn (a + b) l.
Proof.
  induction a as [| a IH]; intros [| x l]; simpl; try reflexivity.
  - rewrite firstn_nil. reflexivity.
  - rewrite IH. reflexivity.
Qed.

Lemma NoDup_key_inj (l : list A) a b :
  NoDup (map key l) -> In a l -> In b l -> key a = key b -> a = b.
Proof.
  induction l as [| x l IH]; simpl; [tauto |].
  intros Hnodup Ha Hb Hkey. inversion Hnodup as [| k ks Hnotin Hrest]; subst.
  destruct Ha as [-> | Ha]; destruct Hb as [-> | Hb].
  - reflexivity.
  - exfalso. apply Hnotin. rewrite Hkey. apply in_map, Hb.
  - exfalso. apply Hnotin. rewrite <- Hkey. apply in_map, Ha.
  - apply IH; assumption.
Qed.

(** Rows with pairwise different keys have one descending order only:
    there the result of the query does not depend on how rows with the
    same key would be arranged. *)
Lemma descending_perm_unique (l1 : list A) : forall l2,
  NoDup (map key l1) ->
  descending key l1 -> descending key l2 ->
  Permutation l1 l2 ->
  l1 = l2.
Proof.
  induction l1 as [| x l1 IH]; intros l2 Hnodup H1 H2 Hperm.
  - apply Permutation_nil in Hperm. subst. reflexivity.
  - destruct l2 as [| y l2].
    + apply Permutation_sym, Permutation_nil in Hperm. discriminate.
    + assert (Hxy : x = y).
      { assert (Hx : In x (y :: l2))
          by (apply (Permutation_in _ Hperm); left; reflexivity).
        assert (Hy : In y (x :: l1))
          by (apply (Permutation_in _ (Permutation_sym Hperm)); left; reflexivity).
        apply (NoDup_key_inj (x :: l1)); [exact Hnodup | left; reflexivity | exact Hy |].
        destruct H1 as [H1 _]. destruct H2 as [H2 _].
        destruct Hx as [<- | Hx]; [reflexivity |].
        destruct Hy as [<- | Hy]; [reflexivity |].
        specialize (H1 y Hy). specialize (H2 x Hx). lia. }
      subst y. f_equal.
      apply IH.
      * simpl in Hnodup. inversion Hnodup. assumption.
      * apply (descending_tail x), H1.
      * apply (descending_tail x), H2.
      * apply (Permutation_cons_inv Hperm).
Qed.

End Ordering.

Lemma insert_createdAt_desc_eq v l :
  insert_createdAt_desc v l = insert_desc Vote.createdAt v l.
Proof.
  induction l as [| x l IH]; simpl; [reflexivity |].
  rewrite IH. reflexivity.
Qed.

Lemma orderBy_createdAt_desc_eq l :
  orderBy_createdAt_desc l = orderBy_desc Vote.createdAt l.
Proof.
  induction l as [| x l IH]; simpl; [reflexivity |].
  rewrite insert_createdAt_desc_eq, IH. reflexivity.
Qed.

(* ===================================================================== *)
(** ** Pages of votes *)
(* ===================================================================== *)

Section Pages.

Variable prismaInt : Z -> bool.

(** X1. The page that [getProposalVotes] returns holds exactly
    min(|limit|, total - offset) votes, none when the offset reaches the
    total; a negative limit selects as many votes as its absolute
    value. *)
Theorem getProposalVotes_page_length proposalId options db page :
  getProposalVotes prismaInt proposalId options db = (Fulfilled page, db) ->
  exists o l,
    VotesPage.offset page = Integer o
    /\ VotesPage.limit page = Integer l
    /\ 0 <= o
    /\ Z.of_nat (List.length (VotesPage.votes page))
       = Z.min (Z.abs l) (Z.max 0 (VotesPage.total page - o)).
Proof.
  intros H. apply getProposalVotes_fulfilled in H as [_ (o & l & _ & _ & Ho & ->)].
  exists o, l. simpl. repeat split; [exact Ho |].
  rewrite pageRows_length, orderBy_createdAt_desc_length.
  unfold governanceVote_count.
  pose proof (Z.abs_nonneg l). lia.
Qed.

(** X2. The votes of a page are in the order of their creation time,
    newest first. *)
Theorem getProposalVotes_page_descending proposalId options db page :
  getProposalVotes prismaInt proposalId options db = (Fulfilled page, db) ->
  descending Vote.createdAt (VotesPage.votes page).
Proof.
  intros H. apply getProposalVotes_fulfilled in H as [_ (o & l & _ & _ & _ & ->)].
  simpl. rewrite orderBy_createdAt_desc_eq.
  apply descending_pageRows, orderBy_desc_descending.
Qed.

(** X3. Every vote of a page is a stored vote of the proposal asked
    for. *)
Theorem getProposalVotes_page_members proposalId options db page v :
  getProposalVotes prismaInt proposalId options db = (Fulfilled page, db) ->
  In v (VotesPage.votes page) ->
  In v (governanceVote db) /\ Vote.proposalId v = proposalId.
Proof.
  intros H Hv. apply getProposalVotes_fulfilled in H as [_ (o & l & _ & _ & _ & ->)].
  simpl in Hv. rewrite orderBy_createdAt_desc_eq in Hv.
  apply In_pageRows in Hv.
  apply (Permutation_in _ (orderBy_desc_perm Vote.createdAt _)) in Hv.
  apply filter_In in Hv as [Hin Hp]. split; [exact Hin |].
  apply String.eqb_eq. exact Hp.
Qed.

(** X4. When the votes of a proposal have pairwise different creation
    times, their order is fixed by the data, and the pages asked for
    with limits that are not negative tile it: the page of [a] votes at
    [offset] followed by the page of [b] votes at [offset + a] is the
    page of [a + b] votes at [offset], and that page is rows [offset]
    to [offset + a + b - 1] of every arrangement of the votes by
    descending creation time. *)
Theorem getProposalVotes_pages_concat proposalId offset a b db page1 page2 page :
  NoDup (map Vote.createdAt (filter (ofProposal proposalId) (governanceVote db))) ->
  0 <= a -> 0 <= b ->
  getProposalVotes prismaInt proposalId
    (Some (PageOptions.mk (Some (Integer a)) (Some (Integer offset)))) db
  = (Fulfilled page1, db) ->
  getProposalVotes prismaInt proposalId
    (Some (PageOptions.mk (Some (Integer b)) (Some (Integer (offset + a))))) db
  = (Fulfilled page2, db) ->
  getProposalVotes prismaInt proposalId
    (Some (PageOptions.mk (Some (Integer (a + b))) (Some (Integer offset)))) db
  = (Fulfilled page, db) ->
  VotesPage.votes page1 ++ VotesPage.votes page2 = VotesPage.votes page
  /\ forall ordered,
       Permutation ordered (filter (ofProposal proposalId) (governanceVote db)) ->
       descending Vote.createdAt ordered ->
       VotesPage.votes page
       = firstn (Z.to_nat (a + b)) (skipn (Z.to_nat offset) ordered).
Proof.
  intros Hdistinct Ha Hb H1 H2 H.
  apply getProposalVotes_fulfilled in H1 as [_ (o1 & l1 & Ho1 & Hl1 & Hpos & ->)].
  apply getProposalVotes_fulfilled in H2 as [_ (o2 & l2 & Ho2 & Hl2 & _ & ->)].
  apply getProposalVotes_fulfilled in H as [_ (o3 & l3 & Ho3 & Hl3 & _ & ->)].
  simpl in *.
  inversion Ho1; subst o1. inversion Hl1; subst l1.
  inversion Ho2; subst o2. inversion Hl2; subst l2.
  inversion Ho3; subst o3. inversion Hl3; subst l3.
  unfold pageRows.
  destruct (Z.leb_spec 0 a); [| lia]. destruct (Z.leb_spec 0 b); [| lia].
  destruct (Z.leb_spec 0 (a + b)); [| lia].
  split.
  - rewrite Z2Nat.inj_add by lia. rewrite Z2Nat.inj_add by lia.
    rewrite <- firstn_skipn_add. f_equal. f_equal.
    rewrite skipn_skipn. f_equal. lia.
  - intros ordered Hperm Hdesc. f_equal. f_equal.
    rewrite orderBy_createdAt_desc_eq.
    apply (descending_perm_unique Vote.createdAt).
    + apply (Permutation_NoDup
               (Permutation_map Vote.createdAt
                  (Permutation_sym (orderBy_desc_perm Vote.createdAt _)))).
      exact Hdistinct.
    + apply orderBy_desc_descending.
    + exact Hdesc.
    + rewrite orderBy_desc_perm. apply Permutation_sym, Hperm.
Qed.

(** X5. A page that starts at offset 0 with a limit of at least [total]
    holds all the votes of the proposal, each as often as it is stored. *)
Theorem getProposalVotes_full_page proposalId options db page l :
  getProposalVotes prismaInt proposalId options db = (Fulfilled page, db) ->
  VotesPage.offset page = Integer 0 ->
  VotesPage.limit page = Integer l ->
  VotesPage.total page <= l ->
  Permutation (VotesPage.votes page)
              (filter (ofProposal proposalId) (governanceVote db)).
Proof.
  intros H. apply getProposalVotes_fulfilled in H as [_ (o & l' & _ & _ & _ & ->)].
  simpl. intros Ho Hl Hlimit. inversion Ho; subst o. inversion Hl; subst l'.
  unfold governanceVote_count in Hlimit. unfold pageRows.
  destruct (Z.leb_spec 0 l); [| lia]. simpl skipn. rewrite firstn_all2.
  - rewrite orderBy_createdAt_desc_eq. apply orderBy_desc_perm.
  - rewrite orderBy_createdAt_desc_length. lia.
Qed.

End Pages.

(* ===================================================================== *)
(** ** What a vote changes *)
(* ===================================================================== *)

Section VoteEffects.

Variable Decimal_new : string -> option Decimal.
Variable uniqueVoteIndex : bool.

(** X6. [castVote] reports the first of its checks that fails, in the
    order: the proposal exists, it is OPEN, the clock is at most
    [endsAt], the voter has no vote on it yet, the Decimal constructor
    reads the weight; each of these rejections leaves the database
    unchanged.  It is fulfilled only when all five hold. *)
Theorem castVote_first_failing_check now req db :
  (proposalExists req db = false ->
   castVote Decimal_new uniqueVoteIndex now req db
   = (Rejected (Error "Proposal not found"), db))
  /\ (forall p, proposalOf req db = Some p -> Proposal.status p <> OPEN ->
      castVote Decimal_new uniqueVoteIndex now req db
      = (Rejected (Error ("Cannot vote on proposal with status: "
                          ++ GovernanceStatus_value (Proposal.status p))%string), db))
  /\ (proposalOpen req db = true -> beforeDeadline now req db = false ->
      castVote Decimal_new uniqueVoteIndex now req db
      = (Rejected (Error "Voting period has ended"), db))
  /\ (proposalOpen req db = true -> beforeDeadline now req db = true ->
      notYetVoted req db = false ->
      castVote Decimal_new uniqueVoteIndex now req db
      = (Rejected (Error "User has already voted on this proposal"), db))
  /\ (proposalOpen req db = true -> beforeDeadline now req db = true ->
      notYetVoted req db = true -> weightParses Decimal_new req = false ->
      castVote Decimal_new uniqueVoteIndex now req db
      = (Rejected (DecimalError (CastVoteRequest.weight req)), db))
  /\ (forall v db',
      castVote Decimal_new uniqueVoteIndex now req db = (Fulfilled v, db') ->
      proposalOpen req db = true
      /\ beforeDeadline now req db = true
      /\ notYetVoted req db = true
      /\ weightParses Decimal_new req = true).
Proof.
  rewrite castVote_eq.
  unfold proposalExists, proposalOpen, beforeDeadline, weightParses.
  destruct (proposalOf req db) as [p |].
  - assert (Hgt : (now >? Proposal.endsAt p) = negb (now <=? Proposal.endsAt p)).
    { rewrite Z.gtb_ltb. destruct (Z.leb_spec now (Proposal.endsAt p));
        destruct (Z.ltb_spec (Proposal.endsAt p) now); simpl; lia || reflexivity. }
    rewrite Hgt.
    split; [discriminate |]. split; [| split; [| split; [| split]]].
    + intros q Hq Hclosed. inversion Hq; subst q.
      destruct (GovernanceStatus_eqb (Proposal.status p) OPEN) eqn:E; [| reflexivity].
      apply GovernanceStatus_eqb_eq in E. contradiction.
    + intros -> ->. reflexivity.
    + intros -> -> ->. reflexivity.
    + intros -> -> ->. simpl.
      destruct (Decimal_new _); [discriminate | reflexivity].
    + intros v db'.
      destruct (GovernanceStatus_eqb (Proposal.status p) OPEN); simpl; [| discriminate].
      destruct (now <=? Proposal.endsAt p); simpl; [| discriminate].
      destruct (notYetVoted req db); [| discriminate].
      destruct (Decimal_new _); [| discriminate]. tauto.
  - split; [reflexivity |]. split; [discriminate |].
    repeat (split; [discriminate |]). discriminate.
Qed.

Lemma castVote_proposals now req db :
  governanceProposal (snd (castVote Decimal_new uniqueVoteIndex now req db))
  = governanceProposal db.
Proof.
  destruct (castVote Decimal_new uniqueVoteIndex now req db) as [[v | e] db'] eqn:H;
    simpl.
  - apply castVote_fulfilled in H as (_ & _ & _ & _ & _ & _ & ->). reflexivity.
  - apply castVote_rejected_unchanged in H. subst. reflexivity.
Qed.

Lemma castVote_votes now req db :
  exists added,
    governanceVote (snd (castVote Decimal_new uniqueVoteIndex now req db))
    = governanceVote db ++ added
    /\ (List.length added <= 1)%nat.
Proof.
  destruct (castVote Decimal_new uniqueVoteIndex now req db) as [[v | e] db'] eqn:H;
    simpl.
  - apply castVote_fulfilled in H as (_ & _ & _ & _ & _ & _ & ->).
    exists [v]. split; [reflexivity | simpl; lia].
  - apply castVote_rejected_unchanged in H. subst.
    exists []. rewrite app_nil_r. split; [reflexivity | simpl; lia].
Qed.

(** Whatever calls of [castVote] are made, the proposals stay as they
    were and the votes already stored stay in place: the vote table only
    grows at its end, by at most one vote per call. *)
Lemma castVotes_append_only calls : forall db,
  governanceProposal (castVotes Decimal_new uniqueVoteIndex calls db)
  = governanceProposal db
  /\ exists added,
       governanceVote (castVotes Decimal_new uniqueVoteIndex calls db)
       = governanceVote db ++ added
       /\ (List.length added <= List.length calls)%nat.
Proof.
  induction calls as [| [now req] calls IH]; intros db; simpl.
  - split; [reflexivity |]. exists []. rewrite app_nil_r. split; [reflexivity | simpl; lia].
  - destruct (IH (snd (castVote Decimal_new uniqueVoteIndex now req db)))
      as [Hp [added [Hv Hlen]]].
    destruct (castVote_votes now req db) as [first [Hfirst Hone]].
    split; [rewrite Hp; apply castVote_proposals |].
    exists (first ++ added). rewrite Hv, Hfirst, app_assoc.
    split; [reflexivity |]. rewrite length_app. lia.
Qed.

Lemma proposalOf_same_proposal req req' db db' :
  CastVoteRequest.proposalId req' = CastVoteRequest.proposalId req ->
  governanceProposal db' = governanceProposal db ->
  proposalOf req' db' = proposalOf req db.
Proof. unfold proposalOf. intros -> ->. reflexivity. Qed.

(** X7. Once a vote has been accepted, every later call for the same
    voter and proposal made before the deadline is rejected with "User
    has already voted on this proposal" and changes nothing, whatever it
    asks to vote, with whatever weight, and whatever other calls were
    made in between. *)
Theorem castVote_retry_rejected now req db v db' calls now' req' p :
  castVote Decimal_new uniqueVoteIndex now req db = (Fulfilled v, db') ->
  proposalOf req db = Some p ->
  requestPair req' = requestPair req ->
  now' <= Proposal.endsAt p ->
  castVote Decimal_new uniqueVoteIndex now' req'
    (castVotes Decimal_new uniqueVoteIndex calls db')
  = (Rejected (Error "User has already voted on this proposal"),
     castVotes Decimal_new uniqueVoteIndex calls db').
Proof.
  intros Hcall Hp Hpair Hnow.
  apply castVote_fulfilled in Hcall as (_ & Hopen & _ & _ & _ & Hrow & ->).
  unfold requestPair in Hpair. inversion Hpair as [[Hpid Haddr]].
  destruct (castVotes_append_only calls
              (mkDb (governanceProposal db) (governanceVote db ++ [v])))
    as [Hprops [added Hvotes]]. destruct Hvotes as [Hvotes _].
  simpl in Hprops, Hvotes.
  rewrite castVote_eq.
  rewrite (proposalOf_same_proposal req req' db _ Hpid Hprops), Hp.
  unfold proposalOpen in Hopen. rewrite Hp in Hopen. rewrite Hopen. simpl.
  rewrite Z.gtb_ltb. destruct (Z.ltb_spec (Proposal.endsAt p) now'); [lia |].
  unfold notYetVoted. rewrite Hvotes, Hpid, Haddr.
  rewrite !existsb_app. simpl.
  replace (votedBy (CastVoteRequest.proposalId req)
                   (CastVoteRequest.voterAddress req) v) with true.
  - rewrite orb_true_r. reflexivity.
  - rewrite Hrow. unfold votedBy. simpl. rewrite !String.eqb_refl. reflexivity.
Qed.

(** X8. An accepted vote raises the [total] that [getProposalVotes]
    reports for its proposal by one and leaves the total of every other
    proposal as it was. *)
Theorem castVote_then_total prismaInt now req db v db' proposalId
  options1 options2 page page' :
  castVote Decimal_new uniqueVoteIndex now req db = (Fulfilled v, db') ->
  getProposalVotes prismaInt proposalId options1 db = (Fulfilled page, db) ->
  getProposalVotes prismaInt proposalId options2 db' = (Fulfilled page', db') ->
  VotesPage.total page'
  = VotesPage.total page
    + (if String.eqb (CastVoteRequest.proposalId req) proposalId then 1 else 0).
Proof.
  intros Hcall H H'.
  apply castVote_fulfilled in Hcall as (_ & _ & _ & _ & _ & Hrow & ->).
  apply getProposalVotes_fulfilled in H as [_ (o & l & _ & _ & _ & ->)].
  apply getProposalVotes_fulfilled in H' as [_ (o' & l' & _ & _ & _ & ->)]. simpl.
  rewrite filter_app, length_app. simpl.
  unfold ofProposal at 2. rewrite Hrow. simpl.
  destruct (String.eqb (CastVoteRequest.proposalId req) proposalId); simpl; lia.
Qed.

(** X9. When the stored votes of a proposal have pairwise different
    creation times, all earlier than the time at which a new vote is
    accepted, the new vote is put in front of the first page: the first
    [n + 1] votes afterwards are the new vote followed by the first [n]
    votes before, which are the first [n] of every arrangement of the
    earlier votes by descending creation time. *)
Theorem castVote_then_first_page prismaInt now req db v db' n page page' :
  castVote Decimal_new uniqueVoteIndex now req db = (Fulfilled v, db') ->
  (forall x, In x (governanceVote db) ->
             Vote.proposalId x = CastVoteRequest.proposalId req ->
             Vote.createdAt x < now) ->
  NoDup (map Vote.createdAt
           (filter (ofProposal (CastVoteRequest.proposalId req)) (governanceVote db))) ->
  0 <= n ->
  getProposalVotes prismaInt (CastVoteRequest.proposalId req)
    (Some (PageOptions.mk (Some (Integer n)) (Some (Integer 0)))) db
  = (Fulfilled page, db) ->
  getProposalVotes prismaInt (CastVoteRequest.proposalId req)
    (Some (PageOptions.mk (Some (Integer (n + 1))) (Some (Integer 0)))) db'
  = (Fulfilled page', db') ->
  VotesPage.votes page' = v :: VotesPage.votes page
  /\ forall ordered,
       Permutation ordered
         (filter (ofProposal (CastVoteRequest.proposalId req)) (governanceVote db)) ->
       descending Vote.createdAt ordered ->
       VotesPage.votes page' = v :: firstn (Z.to_nat n) ordered.
Proof.
  intros Hcall Hnewest Hdistinct Hn H H'.
  apply castVote_fulfilled in Hcall as (_ & _ & _ & _ & _ & Hrow & ->).
  apply getProposalVotes_fulfilled in H as [_ (o & l & Ho & Hl & _ & ->)].
  apply getProposalVotes_fulfilled in H' as [_ (o' & l' & Ho' & Hl' & _ & ->)].
  simpl in *.
  inversion Ho; subst o. inversion Hl; subst l.
  inversion Ho'; subst o'. inversion Hl'; subst l'.
  rewrite filter_app. simpl filter.
  replace (ofProposal (CastVoteRequest.proposalId req) v) with true
    by (rewrite Hrow; unfold ofProposal; simpl; rewrite String.eqb_refl; reflexivity).
  rewrite !orderBy_createdAt_desc_eq, orderBy_desc_newest.
  2: { intros x Hx. apply filter_In in Hx as [Hin Hp].
       apply String.eqb_eq in Hp. rewrite Hrow. simpl. apply Hnewest; assumption. }
  unfold pageRows.
  destruct (Z.leb_spec 0 n); [| lia]. destruct (Z.leb_spec 0 (n + 1)); [| lia].
  replace (Z.to_nat (n + 1)) with (S (Z.to_nat n)) by lia. simpl.
  split; [reflexivity |].
  intros ordered Hperm Hdesc. f_equal. f_equal.
  apply (descending_perm_unique Vote.createdAt).
  - apply (Permutation_NoDup
             (Permutation_map Vote.createdAt
                (Permutation_sym (orderBy_desc_perm Vote.createdAt _)))).
    exact Hdistinct.
  - apply orderBy_desc_descending.
  - exact Hdesc.
  - rewrite orderBy_desc_perm. apply Permutation_sym, Hperm.
Qed.

Section WithMetrics.

Variable aggregate_avg_weight : list Vote.t -> option Decimal.
Variable Decimal_toString : Decimal -> string.

(** X10. After an accepted vote [getMetrics] counts one vote more and the
    same proposals, status by status. *)
Theorem castVote_then_metrics now req db v db' m m' :
  castVote Decimal_new uniqueVoteIndex now req db = (Fulfilled v, db') ->
  getMetrics aggregate_avg_weight Decimal_toString db = (Fulfilled m, db) ->
  getMetrics aggregate_avg_weight Decimal_toString db' = (Fulfilled m', db') ->
  VotingStats.totalVotes (Metrics.voting m')
  = VotingStats.totalVotes (Metrics.voting m) + 1
  /\ Metrics.proposals m' = Metrics.proposals m.
Proof.
  intros Hcall H H'.
  apply castVote_fulfilled in Hcall as (_ & _ & _ & _ & _ & _ & ->).
  unfold getMetrics in H, H'. inversion H. inversion H'. simpl.
  unfold governanceVote_count. simpl. rewrite length_app. simpl. split; [lia |].
  reflexivity.
Qed.

End WithMetrics.

End VoteEffects.

(* ===================================================================== *)
(** ** Reading proposals *)
(* ===================================================================== *)

Lemma find_some_existsb {A} (f : A -> bool) (l : list A) x :
  find f l = Some x -> existsb f l = true.
Proof.
  intros H. destruct (existsb f l) eqn:E; [reflexivity |].
  apply find_none_existsb in E. congruence.
Qed.

Lemma find_id_In id (l : list Proposal.t) :
  find (fun p => String.eqb (Proposal.id p) id) l <> None
  <-> In id (map Proposal.id l).
Proof.
  induction l as [| x l IH]; simpl; [split; [congruence | tauto] |].
  destruct (String.eqb_spec (Proposal.id x) id) as [-> | Hne].
  - split; [tauto | discriminate].
  - rewrite IH. split; [tauto | intros [H | H]; [contradiction | exact H]].
Qed.

Lemma filter_status_only status (l : list Proposal.t) :
  filter (proposalMatches (ProposalWhere.mk status None)) l
  = match status with
    | Some s => filter (fun p => GovernanceStatus_eqb (Proposal.status p) s) l
    | None => l
    end.
Proof.
  unfold proposalMatches. simpl.
  destruct status as [s |]; induction l as [| x l IH]; simpl; try reflexivity.
  - rewrite andb_true_r, IH. reflexivity.
  - f_equal. exact IH.
Qed.

Section ProposalProperties.

Variable UserSummary : Type.
Variable proposerOf : string -> option UserSummary.


(** X12. Every proposal that [getProposals] returns is a stored one that
    has the status asked for, if any, and the proposer asked for, if one
    is given and is not the empty string; it comes with all the votes
    stored for it and with the summary of its proposer. *)
Theorem getProposals_members f db page r :
  getProposals proposerOf (Some f) db = (Fulfilled page, db) ->
  In r (ProposalsPage.proposals page) ->
  In (ProposalWithRelations.proposal r) (governanceProposal db)
  /\ (forall s, ProposalFilters.status f = Some s ->
                Proposal.status (ProposalWithRelations.proposal r) = s)
  /\ (forall u, ProposalFilters.proposerId f = Some u -> u <> EmptyString ->
                Proposal.proposerId (ProposalWithRelations.proposal r) = u)
  /\ ProposalWithRelations.votes r
     = filter (ofProposal (Proposal.id (ProposalWithRelations.proposal r)))
              (governanceVote db)
  /\ ProposalWithRelations.proposer r
     = proposerOf (Proposal.proposerId (ProposalWithRelations.proposal r)).
Proof.
  unfold getProposals. intros H Hr. inversion H as [Hpage]. clear H.
  rewrite <- Hpage in Hr. simpl in Hr. unfold governanceProposal_findMany in Hr.
  apply in_map_iff in Hr as [p [<- Hp]].
  apply In_firstn, In_skipn in Hp.
  apply (Permutation_in _ (orderBy_desc_perm Proposal.createdAt _)) in Hp.
  apply filter_In in Hp as [Hin Hm].
  unfold proposalMatches, getProposals_where in Hm. simpl in Hm.
  apply andb_prop in Hm as [Hs Hu]. simpl.
  repeat split; try assumption.
  - intros s Hf. rewrite Hf in Hs. apply GovernanceStatus_eqb_eq, Hs.
  - intros u Hf Hne. rewrite Hf in Hu.
    destruct (String.eqb_spec u EmptyString); [contradiction |].
    apply String.eqb_eq, Hu.
Qed.

(** X13. The proposals of a page are in the order of their creation
    time, newest first. *)
Theorem getProposals_descending filters db page :
  getProposals proposerOf filters db = (Fulfilled page, db) ->
  descending Proposal.createdAt
    (map ProposalWithRelations.proposal (ProposalsPage.proposals page)).
Proof.
  unfold getProposals. intros H. inversion H. simpl.
  unfold governanceProposal_findMany. rewrite map_map. simpl. rewrite map_id.
  apply descending_firstn, descending_skipn, orderBy_desc_descending.
Qed.

Section WithMetrics.

Variable aggregate_avg_weight : list Vote.t -> option Decimal.
Variable Decimal_toString : Decimal -> string.

(** X14. Without a proposer filter, or with the empty string as
    proposer, which the service ignores, the [total] of [getProposals] is
    the count that [getMetrics] reports on the same database: the count
    of the status asked for, or of all proposals when no status is
    given. *)
Theorem getProposals_total_metrics status proposerId limit offset db page m :
  proposerId = None \/ proposerId = Some EmptyString ->
  getProposals proposerOf
    (Some (ProposalFilters.mk status proposerId limit offset)) db
  = (Fulfilled page, db) ->
  getMetrics aggregate_avg_weight Decimal_toString db = (Fulfilled m, db) ->
  ProposalsPage.total page
  = match status with
    | None => ProposalCounts.total (Metrics.proposals m)
    | Some OPEN => ProposalCounts.open (Metrics.proposals m)
    | Some PASSED => ProposalCounts.passed (Metrics.proposals m)
    | Some REJECTED => ProposalCounts.rejected (Metrics.proposals m)
    | Some EXECUTED => ProposalCounts.executed (Metrics.proposals m)
    end.
Proof.
  intros Hu H Hm. unfold getProposals in H. inversion H. clear H.
  unfold getMetrics in Hm. inversion Hm. clear Hm. simpl.
  unfold governanceProposal_countWhere, governanceProposal_count, getProposals_where.
  simpl.
  replace (match proposerId with
           | Some u => if String.eqb u EmptyString then None else Some u
           | None => None
           end) with (@None string) by (destruct Hu as [-> | ->]; reflexivity).
  rewrite (filter_status_only status (governanceProposal db)).
  destruct status as [[] |]; reflexivity.
Qed.

End WithMetrics.

(** X15. [getProposalById] is fulfilled exactly when a proposal with the
    identifier is stored, and is rejected with "Proposal not found"
    otherwise, as [getProposalVotes] then is for any options.  The
    proposal it returns has the identifier asked for and carries all the
    votes of the proposal: whenever [getProposalVotes] is fulfilled on
    the same database, its [total] is their number and every vote of its
    page is among them. *)
Theorem getProposalById_votes prismaInt id db :
  match getProposalById proposerOf id db with
  | (Fulfilled r, db') =>
      db' = db
      /\ Proposal.id (ProposalWithRelations.proposal r) = id
      /\ In (ProposalWithRelations.proposal r) (governanceProposal db)
      /\ forall options page,
           getProposalVotes prismaInt id options db = (Fulfilled page, db) ->
           Z.of_nat (List.length (ProposalWithRelations.votes r))
           = VotesPage.total page
           /\ forall v, In v (VotesPage.votes page) ->
                        In v (ProposalWithRelations.votes r)
  | (Rejected e, db') =>
      db' = db
      /\ e = Error "Proposal not found"
      /\ ~ In id (map Proposal.id (governanceProposal db))
      /\ forall options,
           getProposalVotes prismaInt id options db = (Rejected e, db)
  end.
Proof.
  unfold getProposalById.
  destruct (find (fun p => String.eqb (Proposal.id p) id) (governanceProposal db))
    as [p |] eqn:Hfind.
  - split; [reflexivity |]. simpl.
    pose proof (find_some _ _ Hfind) as [Hin Hid]. apply String.eqb_eq in Hid.
    split; [exact Hid |]. split; [exact Hin |].
    intros options page H.
    apply getProposalVotes_fulfilled in H as [_ (o & l & _ & _ & _ & ->)]. simpl.
    rewrite Hid. split; [reflexivity |].
    intros v Hv. rewrite orderBy_createdAt_desc_eq in Hv.
    apply In_pageRows in Hv.
    apply (Permutation_in _ (orderBy_desc_perm Vote.createdAt _)) in Hv. exact Hv.
  - split; [reflexivity |]. split; [reflexivity |]. split.
    + intros Hin. apply find_id_In in Hin. congruence.
    + intros options. rewrite getProposalVotes_eq, Hfind. reflexivity.
Qed.


End ProposalProperties.

(* ===================================================================== *)
(** ** Creating proposals *)
(* ===================================================================== *)

Lemma find_app_none {A} (f : A -> bool) (l1 l2 : list A) :
  find f l1 = None -> find f (l1 ++ l2) = find f l2.
Proof.
  induction l1 as [| x l1 IH]; simpl; [reflexivity |].
  destruct (f x); [discriminate | exact IH].
Qed.

Lemma existsb_id_In id (l : list Proposal.t) :
  existsb (fun p => String.eqb (Proposal.id p) id) l = false
  <-> ~ In id (map Proposal.id l).
Proof.
  rewrite <- find_none_existsb, <- find_id_In.
  destruct (find _ l); split; intros H.
  - discriminate.
  - exfalso. apply H. discriminate.
  - intros H'. apply H'. reflexivity.
  - reflexivity.
Qed.

Lemma no_votes_of_unknown_proposal id db :
  votesReferToProposals db ->
  ~ In id (map Proposal.id (governanceProposal db)) ->
  filter (ofProposal id) (governanceVote db) = [].
Proof.
  intros Hrefer Hnew.
  destruct (filter (ofProposal id) (governanceVote db)) as [| v l] eqn:E;
    [reflexivity |].
  assert (Hv : In v (filter (ofProposal id) (governanceVote db)))
    by (rewrite E; left; reflexivity).
  apply filter_In in Hv as [Hin Hp]. apply String.eqb_eq in Hp.
  apply Hrefer in Hin. rewrite Hp in Hin. contradiction.
Qed.

Section CreateProposalProperties.

Variable UserSummary : Type.
Variable proposerOf : string -> option UserSummary.
Variable proposerForeignKey : bool.
Variable foreignKeyError : exn.

(** The row that [createProposal] stores. *)
Lemma createProposal_fulfilled id now req db c db' :
  createProposal proposerOf proposerForeignKey foreignKeyError id now req db
  = (Fulfilled c, db') ->
  ~ In id (map Proposal.id (governanceProposal db))
  /\ ProposalWithProposer.proposal c
     = Proposal.mk id (CreateProposalRequest.title req)
         (CreateProposalRequest.description req)
         (CreateProposalRequest.proposerId req)
         (CreateProposalRequest.endsAt req) OPEN now
  /\ ProposalWithProposer.proposer c = proposerOf (CreateProposalRequest.proposerId req)
  /\ db' = mkDb (governanceProposal db ++ [ProposalWithProposer.proposal c])
                (governanceVote db).
Proof.
  unfold createProposal, await, governanceProposal_create, resolve.
  destruct (existsb _ (governanceProposal db)) eqn:Hid; [discriminate |].
  destruct (proposerForeignKey && _); [discriminate |].
  intros H. inversion H. simpl. apply existsb_id_In in Hid. tauto.
Qed.

(** A rejected [createProposal] changes nothing, and tells why. *)
Lemma createProposal_rejected id now req db e db' :
  createProposal proposerOf proposerForeignKey foreignKeyError id now req db
  = (Rejected e, db') ->
  db' = db
  /\ (In id (map Proposal.id (governanceProposal db))
      \/ (proposerForeignKey = true
          /\ proposerOf (CreateProposalRequest.proposerId req) = None)).
Proof.
  unfold createProposal, await, governanceProposal_create, resolve.
  destruct (existsb _ (governanceProposal db)) eqn:Hid.
  - intros H. inversion H. subst db'. split; [reflexivity |]. left.
    destruct (in_dec string_dec id (map Proposal.id (governanceProposal db)))
      as [Hin | Hnot]; [exact Hin |].
    apply existsb_id_In in Hnot. congruence.
  - destruct proposerForeignKey; simpl.
    + destruct (proposerOf _); [discriminate |].
      intros H. inversion H. subst db'. split; [reflexivity |].
      right. split; reflexivity.
    + discriminate.
Qed.


(** X18. A proposal that has just been created is found under its
    identifier by [getProposalById]: OPEN, with the fields it was created
    with and with no votes. *)
Theorem createProposal_then_getProposalById id now req db c db' :
  votesReferToProposals db ->
  createProposal proposerOf proposerForeignKey foreignKeyError id now req db
  = (Fulfilled c, db') ->
  getProposalById proposerOf id db'
  = (Fulfilled (ProposalWithRelations.mk (ProposalWithProposer.proposal c)
                                         (ProposalWithProposer.proposer c) []), db')
  /\ Proposal.status (ProposalWithProposer.proposal c) = OPEN.
Proof.
  intros Hrefer H.
  apply createProposal_fulfilled in H as (Hnew & Hrow & Hproposer & ->).
  split; [| rewrite Hrow; reflexivity].
  unfold getProposalById. simpl.
  rewrite find_app_none.
  2: { destruct (find _ (governanceProposal db)) eqn:E; [| reflexivity].
       exfalso. apply Hnew, find_id_In. congruence. }
  simpl. rewrite Hrow at 1. simpl. rewrite String.eqb_refl.
  unfold includeRelations. simpl.
  rewrite Hproposer. rewrite Hrow at 2 3. simpl.
  rewrite (no_votes_of_unknown_proposal id db Hrefer Hnew). reflexivity.
Qed.

Section WithCastVote.

Variable Decimal_new : string -> option Decimal.
Variable uniqueVoteIndex : bool.

(** X19. On a proposal that has just been created, in a database whose
    votes all refer to stored proposals, none of the four checks of the
    service stops a vote made up to its [endsAt], whoever the voter: the
    call is not rejected with an error of the service, and a weight that
    cannot be read is reported as such.  Since [createProposal] accepts
    any [endsAt], a proposal created with an [endsAt] that is already
    over rejects every vote with "Voting period has ended". *)
Theorem createProposal_then_castVote id now req db c db' now' voter vote weight :
  votesReferToProposals db ->
  createProposal proposerOf proposerForeignKey foreignKeyError id now req db
  = (Fulfilled c, db') ->
  (now' <= CreateProposalRequest.endsAt req ->
   (forall message,
      fst (castVote Decimal_new uniqueVoteIndex now'
             (CastVoteRequest.mk id voter vote weight) db')
      <> Rejected (Error message))
   /\ (Decimal_new weight = None ->
       castVote Decimal_new uniqueVoteIndex now'
         (CastVoteRequest.mk id voter vote weight) db'
       = (Rejected (DecimalError weight), db')))
  /\ (CreateProposalRequest.endsAt req < now' ->
      castVote Decimal_new uniqueVoteIndex now'
        (CastVoteRequest.mk id voter vote weight) db'
      = (Rejected (Error "Voting period has ended"), db')).
Proof.
  intros Hrefer H.
  apply createProposal_fulfilled in H as (Hnew & Hrow & _ & ->).
  destruct c as [row proposer]. simpl in Hrow. subst row.
  simpl ProposalWithProposer.proposal.
  set (row := Proposal.mk id (CreateProposalRequest.title req)
                (CreateProposalRequest.description req)
                (CreateProposalRequest.proposerId req)
                (CreateProposalRequest.endsAt req) OPEN now).
  set (request := CastVoteRequest.mk id voter vote weight).
  set (created := mkDb (governanceProposal db ++ [row]) (governanceVote db)).
  assert (Hp : proposalOf request created = Some row).
  { unfold proposalOf. simpl. rewrite find_app_none.
    - simpl. rewrite String.eqb_refl. reflexivity.
    - destruct (find _ (governanceProposal db)) eqn:E; [| reflexivity].
      exfalso. apply Hnew, find_id_In. congruence. }
  assert (Hvoted : notYetVoted request created = true).
  { unfold notYetVoted. simpl. apply negb_true_iff.
    destruct (existsb _ (governanceVote db)) eqn:E; [| reflexivity].
    apply existsb_exists in E as [x [Hin Hx]].
    unfold votedBy in Hx. apply andb_prop in Hx as [Hx _].
    apply String.eqb_eq in Hx. apply Hrefer in Hin. rewrite Hx in Hin.
    contradiction. }
  rewrite castVote_eq, Hp, Hvoted. simpl negb. cbv iota.
  simpl Proposal.endsAt. rewrite Z.gtb_ltb. split; intros Hnow.
  - destruct (Z.ltb_spec (CreateProposalRequest.endsAt req) now'); [lia |].
    simpl CastVoteRequest.weight. split.
    + intros message. destruct (Decimal_new weight); simpl; discriminate.
    + intros ->. reflexivity.
  - destruct (Z.ltb_spec (CreateProposalRequest.endsAt req) now'); [| lia].
    reflexivity.
Qed.

End WithCastVote.

Section WithMetrics.

Variable aggregate_avg_weight : list Vote.t -> option Decimal.
Variable Decimal_toString : Decimal -> string.

(** X20. After a proposal has been created [getMetrics] counts one
    proposal more in total and one more OPEN, and the same votes and the
    same PASSED, REJECTED and EXECUTED proposals. *)
Theorem createProposal_then_metrics id now req db c db' m m' :
  createProposal proposerOf proposerForeignKey foreignKeyError id now req db
  = (Fulfilled c, db') ->
  getMetrics aggregate_avg_weight Decimal_toString db = (Fulfilled m, db) ->
  getMetrics aggregate_avg_weight Decimal_toString db' = (Fulfilled m', db') ->
  ProposalCounts.total (Metrics.proposals m')
  = ProposalCounts.total (Metrics.proposals m) + 1
  /\ ProposalCounts.open (Metrics.proposals m')
     = ProposalCounts.open (Metrics.proposals m) + 1
  /\ ProposalCounts.passed (Metrics.proposals m')
     = ProposalCounts.passed (Metrics.proposals m)
  /\ ProposalCounts.rejected (Metrics.proposals m')
     = ProposalCounts.rejected (Metrics.proposals m)
  /\ ProposalCounts.executed (Metrics.proposals m')
     = ProposalCounts.executed (Metrics.proposals m)
  /\ VotingStats.totalVotes (Metrics.voting m')
     = VotingStats.totalVotes (Metrics.voting m).
Proof.
  intros H Hm Hm'.
  apply createProposal_fulfilled in H as (_ & Hrow & _ & ->).
  unfold getMetrics in Hm, Hm'. inversion Hm. inversion Hm'. simpl.
  unfold governanceProposal_count, governanceVote_count. simpl.
  rewrite !filter_app, !length_app. simpl. rewrite Hrow. simpl.
  repeat split; lia.
Qed.

End WithMetrics.

End CreateProposalProperties.

(* ===================================================================== *)
(** ** What the service keeps true *)
(* ===================================================================== *)

Section ServiceInvariants.

Variable Decimal_new : string -> option Decimal.
Variable uniqueVoteIndex : bool.
Variable UserSummary : Type.
Variable proposerOf : string -> option UserSummary.
Variable proposerForeignKey : bool.
Variable foreignKeyError : exn.

Lemma castVote_refers now req db :
  votesReferToProposals db ->
  votesReferToProposals (snd (castVote Decimal_new uniqueVoteIndex now req db)).
Proof.
  intros Hrefer.
  destruct (castVote Decimal_new uniqueVoteIndex now req db) as [[v | e] db'] eqn:H;
    simpl.
  - apply castVote_fulfilled in H as (Hex & _ & _ & _ & _ & Hrow & ->).
    intros x Hx. simpl in *. apply in_app_or in Hx as [Hx | [<- | []]].
    + apply Hrefer, Hx.
    + rewrite Hrow. simpl. apply find_id_In.
      unfold proposalExists, proposalOf in Hex.
      destruct (find _ (governanceProposal db)); [discriminate | discriminate].
  - apply castVote_rejected_unchanged in H. subst. exact Hrefer.
Qed.

Lemma createProposal_snd id now req db :
  snd (createProposal proposerOf proposerForeignKey foreignKeyError id now req db) = db
  \/ (~ In id (map Proposal.id (governanceProposal db))
      /\ snd (createProposal proposerOf proposerForeignKey foreignKeyError id now req db)
         = mkDb (governanceProposal db
                 ++ [Proposal.mk id (CreateProposalRequest.title req)
                       (CreateProposalRequest.description req)
                       (CreateProposalRequest.proposerId req)
                       (CreateProposalRequest.endsAt req) OPEN now])
                (governanceVote db)).
Proof.
  destruct (createProposal proposerOf proposerForeignKey foreignKeyError
              id now req db) as [[c | e] db'] eqn:H; simpl.
  - apply createProposal_fulfilled in H as (Hnew & Hrow & _ & ->).
    right. rewrite Hrow. split; [exact Hnew | reflexivity].
  - left. apply createProposal_rejected in H. apply H.
Qed.

Lemma serviceCall_integrity c db :
  proposalIdsUnique db /\ votesReferToProposals db /\ oneVotePerVoter db ->
  let db' := serviceCall Decimal_new uniqueVoteIndex proposerOf proposerForeignKey
               foreignKeyError c db in
  proposalIdsUnique db' /\ votesReferToProposals db' /\ oneVotePerVoter db'.
Proof.
  intros (Hids & Hrefer & Hone). destruct c as [id now req | now req]; simpl.
  - destruct (createProposal_snd id now req db) as [-> | [Hnew ->]]; [tauto |].
    split; [| split].
    + unfold proposalIdsUnique in *. simpl. rewrite map_app. simpl.
      apply (Permutation_NoDup (Permutation_cons_append _ _)).
      constructor; assumption.
    + intros v Hv. simpl in *. rewrite map_app. apply in_or_app. left.
      apply Hrefer, Hv.
    + exact Hone.
  - split; [| split].
    + unfold proposalIdsUnique. rewrite castVote_proposals. exact Hids.
    + apply castVote_refers, Hrefer.
    + apply castVote_oneVotePerVoter, Hone.
Qed.

(** X21. Every sequence of [createProposal] and [castVote] calls keeps
    the integrity of the database: the identifiers of the proposals stay
    unique, every vote refers to a stored proposal, and no voter has two
    votes on a proposal. *)
Theorem serviceCalls_integrity calls : forall db,
  proposalIdsUnique db ->
  votesReferToProposals db ->
  oneVotePerVoter db ->
  proposalIdsUnique
    (serviceCalls Decimal_new uniqueVoteIndex proposerOf proposerForeignKey
                  foreignKeyError calls db)
  /\ votesReferToProposals
       (serviceCalls Decimal_new uniqueVoteIndex proposerOf proposerForeignKey
                     foreignKeyError calls db)
  /\ oneVotePerVoter
       (serviceCalls Decimal_new uniqueVoteIndex proposerOf proposerForeignKey
                     foreignKeyError calls db).
Proof.
  unfold serviceCalls.
  induction calls as [| c calls IH]; intros db Hids Hrefer Hone; simpl.
  - tauto.
  - destruct (serviceCall_integrity c db (conj Hids (conj Hrefer Hone)))
      as (Hids' & Hrefer' & Hone').
    apply IH; assumption.
Qed.

Lemma serviceCall_append c db :
  exists ps vs,
    governanceProposal
      (serviceCall Decimal_new uniqueVoteIndex proposerOf proposerForeignKey
                   foreignKeyError c db)
    = governanceProposal db ++ ps
    /\ governanceVote
         (serviceCall Decimal_new uniqueVoteIndex proposerOf proposerForeignKey
                      foreignKeyError c db)
       = governanceVote db ++ vs
    /\ Forall (fun p => Proposal.status p = OPEN) ps.
Proof.
  destruct c as [id now req | now req]; simpl.
  - destruct (createProposal_snd id now req db) as [-> | [_ ->]].
    + exists [], []. rewrite !app_nil_r. repeat split. constructor.
    + exists [Proposal.mk id (CreateProposalRequest.title req)
                (CreateProposalRequest.description req)
                (CreateProposalRequest.proposerId req)
                (CreateProposalRequest.endsAt req) OPEN now], [].
      simpl. rewrite app_nil_r. repeat split.
      constructor; [reflexivity | constructor].
  - destruct (castVote_votes Decimal_new uniqueVoteIndex now req db)
      as [added [Hv _]].
    exists [], added. rewrite castVote_proposals, app_nil_r, Hv. repeat split.
    constructor.
Qed.

(** X22. The service only ever adds: after any sequence of
    [createProposal] and [castVote] calls the proposals and the votes
    stored before are still there, unchanged and in the same places, and
    every proposal added since is OPEN.  No call changes a status. *)
Theorem serviceCalls_append_only calls : forall db,
  exists ps vs,
    governanceProposal
      (serviceCalls Decimal_new uniqueVoteIndex proposerOf proposerForeignKey
                    foreignKeyError calls db)
    = governanceProposal db ++ ps
    /\ governanceVote
         (serviceCalls Decimal_new uniqueVoteIndex proposerOf proposerForeignKey
                       foreignKeyError calls db)
       = governanceVote db ++ vs
    /\ Forall (fun p => Proposal.status p = OPEN) ps.
Proof.
  unfold serviceCalls.
  induction calls as [| c calls IH]; intros db; simpl.
  - exists [], []. rewrite !app_nil_r. repeat split. constructor.
  - destruct (serviceCall_append c db) as (ps1 & vs1 & Hp1 & Hv1 & Hopen1).
    destruct (IH (serviceCall Decimal_new uniqueVoteIndex proposerOf
                    proposerForeignKey foreignKeyError c db))
      as (ps2 & vs2 & Hp2 & Hv2 & Hopen2).
    exists (ps1 ++ ps2), (vs1 ++ vs2).
    rewrite Hp2, Hv2, Hp1, Hv1, !app_assoc. repeat split.
    apply Forall_app. split; assumption.
Qed.

Section WithMetrics.

Variable aggregate_avg_weight : list Vote.t -> option Decimal.
Variable Decimal_toString : Decimal -> string.

Lemma filter_closed_app (s : GovernanceStatus) (l ps : list Proposal.t) :
  s <> OPEN ->
  Forall (fun p => Proposal.status p = OPEN) ps ->
  filter (fun p => GovernanceStatus_eqb (Proposal.status p) s) (l ++ ps)
  = filter (fun p => GovernanceStatus_eqb (Proposal.status p) s) l.
Proof.
  intros Hs Hopen. rewrite filter_app.
  replace (filter _ ps) with (@nil Proposal.t); [apply app_nil_r |].
  induction Hopen as [| p ps Hp _ IH]; simpl; [reflexivity |].
  rewrite Hp. destruct s; try contradiction; simpl; exact IH.
Qed.

Lemma serviceCalls_closed_filter (s : GovernanceStatus) calls : forall db,
  s <> OPEN ->
  filter (fun p => GovernanceStatus_eqb (Proposal.status p) s)
         (governanceProposal
            (serviceCalls Decimal_new uniqueVoteIndex proposerOf
                          proposerForeignKey foreignKeyError calls db))
  = filter (fun p => GovernanceStatus_eqb (Proposal.status p) s)
           (governanceProposal db).
Proof.
  unfold serviceCalls.
  induction calls as [| c calls IH]; intros db Hs; simpl; [reflexivity |].
  rewrite IH by exact Hs.
  destruct (serviceCall_append c db) as (ps & vs & Hp & _ & Hopen).
  rewrite Hp. apply filter_closed_app; assumption.
Qed.

(** X23. Whatever calls of [createProposal] and [castVote] are made, the
    numbers of PASSED, REJECTED and EXECUTED proposals that [getMetrics]
    reports stay what they were: the service has no operation that
    resolves or executes a proposal. *)
Theorem serviceCalls_never_resolve calls db m m' :
  getMetrics aggregate_avg_weight Decimal_toString db = (Fulfilled m, db) ->
  getMetrics aggregate_avg_weight Decimal_toString
    (serviceCalls Decimal_new uniqueVoteIndex proposerOf proposerForeignKey
                  foreignKeyError calls db)
  = (Fulfilled m',
     serviceCalls Decimal_new uniqueVoteIndex proposerOf proposerForeignKey
                  foreignKeyError calls db) ->
  ProposalCounts.passed (Metrics.proposals m')
  = ProposalCounts.passed (Metrics.proposals m)
  /\ ProposalCounts.rejected (Metrics.proposals m')
     = ProposalCounts.rejected (Metrics.proposals m)
  /\ ProposalCounts.executed (Metrics.proposals m')
     = ProposalCounts.executed (Metrics.proposals m).
Proof.
  intros Hm Hm'. unfold getMetrics in Hm, Hm'. inversion Hm. inversion Hm'. simpl.
  unfold governanceProposal_count.
  rewrite !serviceCalls_closed_filter by discriminate.
  repeat split.
Qed.

End WithMetrics.

End ServiceInvariants.

(* ===================================================================== *)
(** ** Overlapping calls of different voters *)
(* ===================================================================== *)

Lemma nth_error_set_nth_eq {A} (x : A) : forall l i t,
  nth_error l i = Some t -> nth_error (set_nth i x l) i = Some x.
Proof.
  induction l as [| y l IH]; intros [| i] t H; simpl in *; try discriminate.
  - reflexivity.
  - eapply IH, H.
Qed.

Lemma nth_error_set_nth_neq {A} (x : A) : forall l i j,
  i <> j -> nth_error (set_nth i x l) j = nth_error l j.
Proof.
  induction l as [| y l IH]; intros [| i] [| j] H; simpl; try reflexivity.
  - contradiction.
  - apply IH. congruence.
Qed.

Lemma notYetVoted_insert_other req db row :
  requestPair req <> (Vote.proposalId row, Vote.voterAddress row) ->
  notYetVoted req (mkDb (governanceProposal db) (governanceVote db ++ [row]))
  = notYetVoted req db.
Proof.
  intros Hne. unfold notYetVoted. simpl. rewrite existsb_app. simpl.
  replace (votedBy (CastVoteRequest.proposalId req)
                   (CastVoteRequest.voterAddress req) row) with false.
  - rewrite !orb_false_r. reflexivity.
  - symmetry. unfold votedBy.
    destruct (String.eqb_spec (Vote.proposalId row) (CastVoteRequest.proposalId req))
      as [Hp |]; [| reflexivity].
    destruct (String.eqb_spec (Vote.voterAddress row) (CastVoteRequest.voterAddress req))
      as [Ha |]; [| reflexivity].
    exfalso. apply Hne. unfold requestPair. rewrite Hp, Ha. reflexivity.
Qed.

Section DistinctVoters.

Variable Decimal_new : string -> option Decimal.
Variable uniqueVoteIndex : bool.

(** One turn of a call either writes nothing, and then reaches the
    insertion only after finding no vote of its voter, or it is the
    insertion itself. *)
Lemma resume_cases now t db t' db' :
  resume Decimal_new uniqueVoteIndex now t db = (t', db') ->
  (forall r, taskRequest t' = Some r -> taskRequest t = Some r)
  /\ ((db' = db
       /\ forall req d, t' = AtCreate req d -> notYetVoted req db = true)
      \/ exists req d,
           t = AtCreate req d
           /\ taskRequest t' = None
           /\ db' = mkDb (governanceProposal db)
                         (governanceVote db ++ [newRow now req d db])).
Proof.
  destruct t as [req | req | req d | r]; simpl.
  - unfold governanceProposal_findUnique.
    destruct (find _ (governanceProposal db)) as [p |].
    + destruct (negb _); [| destruct (now >? _)]; intros H; inversion H; subst;
        (split; [simpl; congruence | left; split; [reflexivity | discriminate]]).
    + intros H; inversion H; subst.
      split; [simpl; congruence | left; split; [reflexivity | discriminate]].
  - unfold governanceVote_findFirst.
    destruct (find _ (governanceVote db)) as [v |] eqn:Hfind.
    + intros H; inversion H; subst.
      split; [simpl; congruence | left; split; [reflexivity | discriminate]].
    + destruct (Decimal_new _) as [d |]; intros H; inversion H; subst.
      * split; [simpl; congruence |]. left. split; [reflexivity |].
        intros req' d' Heq. inversion Heq; subst.
        unfold notYetVoted. apply negb_true_iff, find_none_existsb, Hfind.
      * split; [simpl; congruence | left; split; [reflexivity | discriminate]].
  - unfold governanceVote_create.
    destruct (uniqueVoteIndex && _); intros H; inversion H; subst.
    + split; [simpl; congruence | left; split; [reflexivity | discriminate]].
    + split; [simpl; congruence |]. right. exists req, d. repeat split.
  - intros H; inversion H; subst.
    split; [tauto | left; split; [reflexivity | discriminate]].
Qed.

Lemma run_keeps_oneVotePerVoter schedule : forall pool db,
  distinctCalls pool ->
  insertsAreFirst pool db ->
  oneVotePerVoter db ->
  oneVotePerVoter (snd (run Decimal_new uniqueVoteIndex schedule pool db)).
Proof.
  induction schedule as [| [i now] schedule IH]; intros pool db Hdistinct Hfirst Hone;
    simpl; [exact Hone |].
  destruct (nth_error pool i) as [t |] eqn:Ht; [| apply IH; assumption].
  destruct (resume Decimal_new uniqueVoteIndex now t db) as [t' db'] eqn:Hstep.
  apply resume_cases in Hstep as [Hreq Hcases].
  assert (Hdistinct' : distinctCalls (set_nth i t' pool)).
  { intros a b ta tb ra rb Hab Ha Hb Hra Hrb.
    destruct (Nat.eq_dec i a) as [<- | Hia]; destruct (Nat.eq_dec i b) as [<- | Hib].
    - contradiction.
    - rewrite (nth_error_set_nth_eq t' _ _ _ Ht) in Ha. inversion Ha; subst ta.
      rewrite nth_error_set_nth_neq in Hb by exact Hib.
      exact (Hdistinct i b t tb ra rb Hab Ht Hb (Hreq _ Hra) Hrb).
    - rewrite (nth_error_set_nth_eq t' _ _ _ Ht) in Hb. inversion Hb; subst tb.
      rewrite nth_error_set_nth_neq in Ha by exact Hia.
      exact (Hdistinct a i ta t ra rb Hab Ha Ht Hra (Hreq _ Hrb)).
    - rewrite nth_error_set_nth_neq in Ha by exact Hia.
      rewrite nth_error_set_nth_neq in Hb by exact Hib.
      exact (Hdistinct a b ta tb ra rb Hab Ha Hb Hra Hrb). }
  destruct Hcases as [[-> Hclear] | (req & d & -> & Hsettled & ->)].
  - apply IH; [exact Hdistinct' | | exact Hone].
    intros j req d Hj. destruct (Nat.eq_dec i j) as [<- | Hij].
    + rewrite (nth_error_set_nth_eq t' _ _ _ Ht) in Hj. inversion Hj.
      apply (Hclear req d). congruence.
    + rewrite nth_error_set_nth_neq in Hj by exact Hij. apply (Hfirst j req d Hj).
  - pose proof (Hfirst i req d Ht) as Hnew.
    apply IH; [exact Hdistinct' | |].
    + intros j req' d' Hj. destruct (Nat.eq_dec i j) as [<- | Hij].
      * rewrite (nth_error_set_nth_eq t' _ _ _ Ht) in Hj. inversion Hj; subst t'.
        discriminate.
      * rewrite nth_error_set_nth_neq in Hj by exact Hij.
        rewrite notYetVoted_insert_other; [apply (Hfirst j req' d' Hj) |].
        simpl. intros Heq.
        apply (Hdistinct j i (AtCreate req' d') (AtCreate req d) req' req);
          [congruence | exact Hj | exact Ht | reflexivity | reflexivity | exact Heq].
    + apply oneVotePerVoter_insert; [exact Hone |]. simpl.
      unfold notYetVoted in Hnew. apply negb_true_iff in Hnew. exact Hnew.
Qed.

(** X24. The race between the duplicate check and the insertion only
    concerns calls of the same voter on the same proposal.  When the
    calls in flight are for pairwise different (proposal, voter) pairs,
    then however the event loop interleaves their awaits, and with or
    without a unique index, the database ends with at most one vote per
    voter and proposal. *)
Theorem run_distinct_voters schedule reqs db :
  NoDup (map requestPair reqs) ->
  oneVotePerVoter db ->
  oneVotePerVoter
    (snd (run Decimal_new uniqueVoteIndex schedule (freshPool reqs) db)).
Proof.
  intros Hnodup Hone. apply run_keeps_oneVotePerVoter; [| | exact Hone].
  - intros i j ti tj ri rj Hij Hi Hj Hri Hrj Heq.
    unfold freshPool in Hi, Hj.
    rewrite nth_error_map in Hi, Hj.
    destruct (nth_error reqs i) as [qi |] eqn:Ei; [| discriminate].
    destruct (nth_error reqs j) as [qj |] eqn:Ej; [| discriminate].
    simpl in Hi, Hj. inversion Hi; subst ti. inversion Hj; subst tj.
    simpl in Hri, Hrj. inversion Hri; subst qi. inversion Hrj; subst qj.
    apply Hij.
    apply (proj1 (NoDup_nth_error (map requestPair reqs)) Hnodup).
    + rewrite length_map. apply nth_error_Some. congruence.
    + rewrite !nth_error_map, Ei, Ej. simpl. congruence.
  - intros i req d Hi. unfold freshPool in Hi. rewrite nth_error_map in Hi.
    destruct (nth_error reqs i); discriminate.
Qed.

End DistinctVoters.

(* ===================================================================== *)
(** ** The properties at work on concrete databases *)
(* ===================================================================== *)

Lemma votesReferToProposals_db4 : votesReferToProposals db4.
Proof.
  intros v [<- | [<- | [<- | []]]]; simpl; tauto.
Qed.

Lemma proposalIdsUnique_db1 : proposalIdsUnique db1.
Proof.
  unfold proposalIdsUnique. simpl. constructor; [intros [] | constructor].
Qed.

Lemma votesReferToProposals_db1 : votesReferToProposals db1.
Proof. intros v []. Qed.

Lemma getProposalVotes_page_length_witness :
  exists page o l,
    getProposalVotes int32 "p1"
      (Some (PageOptions.mk (Some (Integer (-1))) (Some (Integer 0)))) db4
    = (Fulfilled page, db4)
    /\ VotesPage.offset page = Integer o
    /\ VotesPage.limit page = Integer l
    /\ 0 <= o
    /\ Z.of_nat (List.length (VotesPage.votes page))
       = Z.min (Z.abs l) (Z.max 0 (VotesPage.total page - o)).
Proof.
  destruct (getProposalVotes_page_length int32 "p1"
              (Some (PageOptions.mk (Some (Integer (-1))) (Some (Integer 0)))) db4
              (VotesPage.mk [vote1] 2 (Integer (-1)) (Integer 0)) eq_refl)
    as (o & l & H).
  exists (VotesPage.mk [vote1] 2 (Integer (-1)) (Integer 0)), o, l.
  split; [reflexivity | exact H].
Defined.

Lemma getProposalVotes_page_descending_witness :
  descending Vote.createdAt [vote2; vote1].
Proof.
  exact (getProposalVotes_page_descending int32 "p1" None db4
           (VotesPage.mk [vote2; vote1] 2 (Integer 100) (Integer 0)) eq_refl).
Defined.

Lemma getProposalVotes_page_members_witness :
  In vote1 (governanceVote db4) /\ Vote.proposalId vote1 = "p1".
Proof.
  apply (getProposalVotes_page_members int32 "p1" None db4
           (VotesPage.mk [vote2; vote1] 2 (Integer 100) (Integer 0)) vote1 eq_refl).
  right. left. reflexivity.
Defined.

Lemma getProposalVotes_pages_concat_witness :
  [vote2] ++ [vote1] = [vote2; vote1]
  /\ forall ordered,
       Permutation ordered (filter (ofProposal "p1") (governanceVote db4)) ->
       descending Vote.createdAt ordered ->
       [vote2; vote1] = firstn (Z.to_nat (1 + 1)) (skipn (Z.to_nat 0) ordered).
Proof.
  apply (getProposalVotes_pages_concat int32 "p1" 0 1 1 db4
           (VotesPage.mk [vote2] 2 (Integer 1) (Integer 0))
           (VotesPage.mk [vote1] 2 (Integer 1) (Integer 1))
           (VotesPage.mk [vote2; vote1] 2 (Integer 2) (Integer 0)));
    [| lia | lia | reflexivity | reflexivity | reflexivity].
  simpl. constructor; [| constructor; [intros [] | constructor]].
  intros [H | []]. discriminate H.
Defined.

Lemma getProposalVotes_full_page_witness :
  Permutation [vote2; vote1] (filter (ofProposal "p1") (governanceVote db4)).
Proof.
  apply (getProposalVotes_full_page int32 "p1" None db4
           (VotesPage.mk [vote2; vote1] 2 (Integer 100) (Integer 0)) 100
           eq_refl eq_refl eq_refl).
  vm_compute. discriminate.
Defined.

Lemma castVote_retry_rejected_witness :
  castVote Decimal_ofLiteral false 1700000003000 (request1 "99")
    (castVotes Decimal_ofLiteral false
       [(1700000002000, CastVoteRequest.mk "p1" "GBOB" "NO" "2.5")]
       (mkDb [proposal1] [vote1]))
  = (Rejected (Error "User has already voted on this proposal"),
     castVotes Decimal_ofLiteral false
       [(1700000002000, CastVoteRequest.mk "p1" "GBOB" "NO" "2.5")]
       (mkDb [proposal1] [vote1])).
Proof.
  apply (castVote_retry_rejected Decimal_ofLiteral false 1700000001000
           (request1 "10") db1 vote1 (mkDb [proposal1] [vote1])
           [(1700000002000, CastVoteRequest.mk "p1" "GBOB" "NO" "2.5")]
           1700000003000 (request1 "99") proposal1);
    [reflexivity | reflexivity | reflexivity | vm_compute; discriminate].
Defined.

Lemma castVote_then_total_witness :
  exists before after,
    getProposalVotes int32 "p1" None db3 = (Fulfilled before, db3)
    /\ getProposalVotes int32 "p1" None
         (mkDb [proposal1; proposal2; proposal3] [vote1; vote2])
       = (Fulfilled after, mkDb [proposal1; proposal2; proposal3] [vote1; vote2])
    /\ VotesPage.total after
       = VotesPage.total before + (if String.eqb "p1" "p1" then 1 else 0).
Proof.
  eexists. eexists. split; [cbv; reflexivity |]. split; [cbv; reflexivity |].
  apply (castVote_then_total Decimal_ofLiteral false int32 1700000002000
           (CastVoteRequest.mk "p1" "GBOB" "NO" "2.5") db3 vote2
           (mkDb [proposal1; proposal2; proposal3] [vote1; vote2])
           "p1" None None); reflexivity.
Defined.

Lemma castVote_then_first_page_witness :
  [vote2; vote1] = vote2 :: [vote1]
  /\ forall ordered,
       Permutation ordered (filter (ofProposal "p1") (governanceVote db3)) ->
       descending Vote.createdAt ordered ->
       [vote2; vote1] = vote2 :: firstn (Z.to_nat 1) ordered.
Proof.
  apply (castVote_then_first_page Decimal_ofLiteral false int32 1700000002000
           (CastVoteRequest.mk "p1" "GBOB" "NO" "2.5") db3 vote2
           (mkDb [proposal1; proposal2; proposal3] [vote1; vote2]) 1
           (VotesPage.mk [vote1] 1 (Integer 1) (Integer 0))
           (VotesPage.mk [vote2; vote1] 2 (Integer 2) (Integer 0)));
    [reflexivity | | | lia | reflexivity | reflexivity].
  - intros x [<- | []] _. reflexivity.
  - simpl. constructor; [intros [] | constructor].
Defined.

Lemma castVote_then_metrics_witness :
  exists m m',
    getMetrics (fun _ => None) (fun _ => "0") db3 = (Fulfilled m, db3)
    /\ getMetrics (fun _ => None) (fun _ => "0")
         (mkDb [proposal1; proposal2; proposal3] [vote1; vote2])
       = (Fulfilled m', mkDb [proposal1; proposal2; proposal3] [vote1; vote2])
    /\ VotingStats.totalVotes (Metrics.voting m')
       = VotingStats.totalVotes (Metrics.voting m) + 1
    /\ Metrics.proposals m' = Metrics.proposals m.
Proof.
  eexists. eexists. split; [cbv; reflexivity |]. split; [cbv; reflexivity |].
  apply (castVote_then_metrics Decimal_ofLiteral false (fun _ => None)
           (fun _ => "0") 1700000002000
           (CastVoteRequest.mk "p1" "GBOB" "NO" "2.5") db3 vote2
           (mkDb [proposal1; proposal2; proposal3] [vote1; vote2]));
    reflexivity.
Defined.

Lemma getProposals_members_witness :
  Proposal.status proposal1 = OPEN /\ Proposal.proposerId proposal1 = "user-1".
Proof.
  destruct (getProposals_members _ users1
              (ProposalFilters.mk (Some OPEN) (Some "user-1") None None) db4
              (ProposalsPage.mk
                 [ProposalWithRelations.mk proposal1 (Some ("user-1", "GUSER1"))
                                           [vote1; vote2]] 1)
              (ProposalWithRelations.mk proposal1 (Some ("user-1", "GUSER1"))
                                        [vote1; vote2])
              eq_refl (or_introl eq_refl))
    as (_ & Hstatus & Hproposer & _).
  split.
  - apply Hstatus. reflexivity.
  - apply Hproposer; [reflexivity | discriminate].
Defined.

Lemma getProposals_descending_witness :
  descending Proposal.createdAt [proposal5; proposal6; proposal1].
Proof.
  exact (getProposals_descending _ users1 None db5
           (ProposalsPage.mk
              [ProposalWithRelations.mk proposal5 (Some ("user-2", "GUSER2")) [];
               ProposalWithRelations.mk proposal6 (Some ("user-1", "GUSER1")) [];
               ProposalWithRelations.mk proposal1 (Some ("user-1", "GUSER1"))
                                        [vote1; vote2]] 3)
           eq_refl).
Defined.

Lemma getProposals_total_metrics_witness :
  exists page m,
    getProposals users1
      (Some (ProposalFilters.mk (Some PASSED) (Some EmptyString) None None)) db4
    = (Fulfilled page, db4)
    /\ getMetrics (fun _ => None) (fun _ => "0") db4 = (Fulfilled m, db4)
    /\ ProposalsPage.total page = ProposalCounts.passed (Metrics.proposals m).
Proof.
  eexists. eexists. split; [cbv; reflexivity |]. split; [cbv; reflexivity |].
  apply (getProposals_total_metrics _ users1 (fun _ => None) (fun _ => "0")
           (Some PASSED) (Some EmptyString) None None db4);
    [right; reflexivity | reflexivity | reflexivity].
Defined.

Lemma createProposal_then_getProposalById_witness :
  getProposalById users1 "p4"
    (mkDb [proposal1; proposal2; proposal3;
           Proposal.mk "p4" "Pause deposits" "For the audit" "user-2"
                       1700009000000 OPEN 1700000005000]
          [vote1; vote2; vote3])
  = (Fulfilled
       (ProposalWithRelations.mk
          (Proposal.mk "p4" "Pause deposits" "For the audit" "user-2"
                       1700009000000 OPEN 1700000005000)
          (Some ("user-2", "GUSER2")) []),
     mkDb [proposal1; proposal2; proposal3;
           Proposal.mk "p4" "Pause deposits" "For the audit" "user-2"
                       1700009000000 OPEN 1700000005000]
          [vote1; vote2; vote3]).
Proof.
  pose proof (createProposal_then_getProposalById _ users1 true (Error "P2003")
                "p4" 1700000005000 createRequest1 db4 _ _
                votesReferToProposals_db4 eq_refl) as [H _].
  exact H.
Defined.

Lemma createProposal_then_castVote_witness :
  ((forall message,
      fst (castVote Decimal_ofLiteral false 1700009000000
             (CastVoteRequest.mk "p4" "GALICE" "YES" "1.2.3")
             (mkDb [proposal1; proposal2; proposal3;
                    Proposal.mk "p4" "Pause deposits" "For the audit" "user-2"
                                1700009000000 OPEN 1700000005000]
                   [vote1; vote2; vote3]))
      <> Rejected (Error message))
   /\ castVote Decimal_ofLiteral false 1700009000000
        (CastVoteRequest.mk "p4" "GALICE" "YES" "1.2.3")
        (mkDb [proposal1; proposal2; proposal3;
               Proposal.mk "p4" "Pause deposits" "For the audit" "user-2"
                           1700009000000 OPEN 1700000005000]
              [vote1; vote2; vote3])
      = (Rejected (DecimalError "1.2.3"),
         mkDb [proposal1; proposal2; proposal3;
               Proposal.mk "p4" "Pause deposits" "For the audit" "user-2"
                           1700009000000 OPEN 1700000005000]
              [vote1; vote2; vote3]))
  /\ castVote Decimal_ofLiteral false 1700009000001
       (CastVoteRequest.mk "p4" "GALICE" "YES" "1.2.3")
       (mkDb [proposal1; proposal2; proposal3;
              Proposal.mk "p4" "Pause deposits" "For the audit" "user-2"
                          1700009000000 OPEN 1700000005000]
             [vote1; vote2; vote3])
     = (Rejected (Error "Voting period has ended"),
        mkDb [proposal1; proposal2; proposal3;
              Proposal.mk "p4" "Pause deposits" "For the audit" "user-2"
                          1700009000000 OPEN 1700000005000]
             [vote1; vote2; vote3]).
Proof.
  split.
  - pose proof (createProposal_then_castVote _ users1 true (Error "P2003")
                  Decimal_ofLiteral false "p4" 1700000005000 createRequest1 db4 _ _
                  1700009000000 "GALICE" "YES" "1.2.3"
                  votesReferToProposals_db4 eq_refl) as [H _].
    destruct H as [Hnone Hweight]; [vm_compute; discriminate |].
    split; [exact Hnone | apply Hweight; reflexivity].
  - pose proof (createProposal_then_castVote _ users1 true (Error "P2003")
                  Decimal_ofLiteral false "p4" 1700000005000 createRequest1 db4 _ _
                  1700009000001 "GALICE" "YES" "1.2.3"
                  votesReferToProposals_db4 eq_refl) as [_ H].
    apply H. reflexivity.
Defined.

Lemma createProposal_then_metrics_witness :
  exists c db' m m',
    createProposal users1 true (Error "P2003") "p4" 1700000005000 createRequest1 db4
    = (Fulfilled c, db')
    /\ getMetrics (fun _ => None) (fun _ => "0") db4 = (Fulfilled m, db4)
    /\ getMetrics (fun _ => None) (fun _ => "0") db' = (Fulfilled m', db')
    /\ ProposalCounts.total (Metrics.proposals m')
       = ProposalCounts.total (Metrics.proposals m) + 1
    /\ ProposalCounts.open (Metrics.proposals m')
       = ProposalCounts.open (Metrics.proposals m) + 1
    /\ ProposalCounts.passed (Metrics.proposals m')
       = ProposalCounts.passed (Metrics.proposals m)
    /\ ProposalCounts.rejected (Metrics.proposals m')
       = ProposalCounts.rejected (Metrics.proposals m)
    /\ ProposalCounts.executed (Metrics.proposals m')
       = ProposalCounts.executed (Metrics.proposals m)
    /\ VotingStats.totalVotes (Metrics.voting m')
       = VotingStats.totalVotes (Metrics.voting m).
Proof.
  eexists. eexists. eexists. eexists.
  split; [cbv; reflexivity |]. split; [cbv; reflexivity |].
  split; [cbv; reflexivity |].
  eapply (createProposal_then_metrics _ users1 true (Error "P2003")
            (fun _ => None) (fun _ => "0")
            "p4" 1700000005000 createRequest1 db4); reflexivity.
Defined.

Lemma serviceCalls_integrity_witness :
  proposalIdsUnique
    (serviceCalls Decimal_ofLiteral false users1 true (Error "P2003")
       [CallCreateProposal "p4" 1700000005000 createRequest1;
        CallCastVote 1700000006000 (request1 "10");
        CallCastVote 1700000007000 (CastVoteRequest.mk "p4" "GALICE" "NO" "1")]
       db1)
  /\ votesReferToProposals
       (serviceCalls Decimal_ofLiteral false users1 true (Error "P2003")
          [CallCreateProposal "p4" 1700000005000 createRequest1;
           CallCastVote 1700000006000 (request1 "10");
           CallCastVote 1700000007000 (CastVoteRequest.mk "p4" "GALICE" "NO" "1")]
          db1)
  /\ oneVotePerVoter
       (serviceCalls Decimal_ofLiteral false users1 true (Error "P2003")
          [CallCreateProposal "p4" 1700000005000 createRequest1;
           CallCastVote 1700000006000 (request1 "10");
           CallCastVote 1700000007000 (CastVoteRequest.mk "p4" "GALICE" "NO" "1")]
          db1).
Proof.
  exact (serviceCalls_integrity Decimal_ofLiteral false _ users1 true (Error "P2003")
           [CallCreateProposal "p4" 1700000005000 createRequest1;
            CallCastVote 1700000006000 (request1 "10");
            CallCastVote 1700000007000 (CastVoteRequest.mk "p4" "GALICE" "NO" "1")]
           db1 proposalIdsUnique_db1 votesReferToProposals_db1 oneVotePerVoter_db1).
Defined.

Lemma serviceCalls_never_resolve_witness :
  exists m m',
    getMetrics (fun _ => None) (fun _ => "0") db3 = (Fulfilled m, db3)
    /\ fst (getMetrics (fun _ => None) (fun _ => "0")
              (serviceCalls Decimal_ofLiteral false users1 true (Error "P2003")
                 [CallCreateProposal "p4" 1700000005000 createRequest1;
                  CallCastVote 1700000006000
                    (CastVoteRequest.mk "p1" "GBOB" "NO" "2.5");
                  CallCastVote 1700000007000
                    (CastVoteRequest.mk "p2" "GBOB" "NO" "1")]
                 db3))
       = Fulfilled m'
    /\ ProposalCounts.passed (Metrics.proposals m')
       = ProposalCounts.passed (Metrics.proposals m)
    /\ ProposalCounts.rejected (Metrics.proposals m')
       = ProposalCounts.rejected (Metrics.proposals m)
    /\ ProposalCounts.executed (Metrics.proposals m')
       = ProposalCounts.executed (Metrics.proposals m).
Proof.
  eexists. eexists. split; [cbv; reflexivity |]. split; [cbv; reflexivity |].
  apply (serviceCalls_never_resolve Decimal_ofLiteral false _ users1 true
           (Error "P2003") (fun _ => None) (fun _ => "0")
           [CallCreateProposal "p4" 1700000005000 createRequest1;
            CallCastVote 1700000006000 (CastVoteRequest.mk "p1" "GBOB" "NO" "2.5");
            CallCastVote 1700000007000 (CastVoteRequest.mk "p2" "GBOB" "NO" "1")]
           db3); reflexivity.
Defined.

Lemma run_distinct_voters_witness :
  oneVotePerVoter
    (snd (run Decimal_ofLiteral false (interleaved 1700000001000)
              (freshPool [request1 "10"; CastVoteRequest.mk "p1" "GBOB" "NO" "2.5"])
              db1)).
Proof.
  apply (run_distinct_voters Decimal_ofLiteral false (interleaved 1700000001000)
           [request1 "10"; CastVoteRequest.mk "p1" "GBOB" "NO" "2.5"] db1).
  - simpl. constructor; [| constructor; [intros [] | constructor]].
    intros [H | []]. discriminate H.
  - exact oneVotePerVoter_db1.
Defined.
